(** * maize_disease: the feature builder and the request handler of [app.py]

    A shallow embedding of [src/app.py] (a Flask form that turns a date and a
    growth stage into the three features of a pre-trained classifier) and of
    the parts of the Python runtime it calls: [datetime.strptime] with the
    format ['%Y-%m-%d'], [datetime] subtraction, [timetuple().tm_yday].

    Conventions.
    - A Python [str] is a [string]; a character is a code point below 256,
      and on those the regex class [\d] is exactly ['0'..'9'].
    - A Python [int] is a [Z].
    - A call that can raise returns a [result]; [try ... except ValueError]
      is [try_except_ValueError].
    - The two objects loaded at start-up ([start_date], [model]) are Section
      variables: neither file is part of the repository. *)

From Stdlib Require Import ZArith String Ascii List Bool Lia.
Import ListNotations.

Local Open Scope string_scope.
Local Open Scope Z_scope.

(** ** Exceptions *)

Module Py.

Inductive exn : Type :=
| ValueError (msg : string)
| OverflowError (msg : string)
| IndexError (msg : string)
| OtherError (cls msg : string).

Inductive result (A : Type) : Type :=
| Ok (a : A)
| Raise (e : exn).
Arguments Ok {A} a.
Arguments Raise {A} e.

Definition bind {A B} (r : result A) (k : A -> result B) : result B :=
  match r with
  | Ok a => k a
  | Raise e => Raise e
  end.

Definition is_ValueError (e : exn) : bool :=
  match e with
  | ValueError _ => true
  | _ => false
  end.

(** [try: body  except ValueError: handler], followed by [k] on the value
    the body bound. Any other exception propagates. *)
Definition try_except_ValueError {A B}
    (body : result A) (handler : result B) (k : A -> result B) : result B :=
  match body with
  | Ok a => k a
  | Raise e => if is_ValueError e then handler else Raise e
  end.

(** Truth value of a [str] and of a value that is a [str] or [None]. *)
Definition truthy_str (s : string) : bool :=
  match s with
  | EmptyString => false
  | String _ _ => true
  end.

Definition truthy (v : option string) : bool :=
  match v with
  | None => false
  | Some s => truthy_str s
  end.

(** [needle in hay] on strings. *)
Definition contains (needle hay : string) : bool :=
  match String.index 0 needle hay with
  | Some _ => true
  | None => false
  end.

End Py.

Export Py.

Notation "x <- c ;; k" := (Py.bind c (fun x => k))
  (at level 61, c at next level, right associativity).

(** ** The [re] engine, as far as [_strptime] needs it

    Ordered alternation with backtracking, named groups, no repetition.
    [run r s] lists every way [r] matches a prefix of [s], in the order the
    backtracking engine tries them; [re_match] keeps the first. *)

Module Re.

(** [Digit] is the class [\d]. On a [str] Python's [\d] is every Unicode
    decimal digit; all of them but ['0'..'9'] lie above code point 255 and
    have no counterpart among the characters of a [string]. *)
Inductive regex : Type :=
| Lit (c : ascii)
| Range (lo hi : ascii)
| Digit
| Seq (r1 r2 : regex)
| Alt (r1 r2 : regex)
| Group (name : string) (r : regex).

Definition groupdict := list (string * string).

Record Match := mkMatch {
  m_groups : groupdict;
  m_text : string;
  m_rest : string
}.

Definition in_range (lo hi c : ascii) : bool :=
  (N_of_ascii lo <=? N_of_ascii c)%N && (N_of_ascii c <=? N_of_ascii hi)%N.

Definition is_digit (c : ascii) : bool := in_range "0" "9" c.

Definition one_char (p : ascii -> bool) (s : string) : list Match :=
  match s with
  | String a rest => if p a then [mkMatch [] (String a "") rest] else []
  | EmptyString => []
  end.

Fixpoint run (r : regex) (s : string) : list Match :=
  match r with
  | Lit c => one_char (Ascii.eqb c) s
  | Range lo hi => one_char (in_range lo hi) s
  | Digit => one_char is_digit s
  | Seq r1 r2 =>
      flat_map (fun m1 =>
        map (fun m2 => mkMatch (m_groups m1 ++ m_groups m2)%list
                               (m_text m1 ++ m_text m2) (m_rest m2))
            (run r2 (m_rest m1)))
        (run r1 s)
  | Alt r1 r2 => (run r1 s ++ run r2 s)%list
  | Group name r1 =>
      map (fun m => mkMatch ((name, m_text m) :: m_groups m)
                            (m_text m) (m_rest m))
          (run r1 s)
  end.

(** [pattern.match(s)]: [None] when nothing matches at the start. *)
Definition re_match (r : regex) (s : string) : option Match :=
  hd_error (run r s).

(** [found.end()] *)
Definition m_end (m : Match) : nat := String.length (m_text m).

(** The words of a regex with the groups they bind, for stating what a
    match looks like. *)
Inductive lang : regex -> string -> groupdict -> Prop :=
| lang_Lit c : lang (Lit c) (String c "") []
| lang_Range lo hi c :
    in_range lo hi c = true -> lang (Range lo hi) (String c "") []
| lang_Digit c : is_digit c = true -> lang Digit (String c "") []
| lang_Seq r1 r2 t1 t2 g1 g2 :
    lang r1 t1 g1 -> lang r2 t2 g2 ->
    lang (Seq r1 r2) (t1 ++ t2) (g1 ++ g2)%list
| lang_Alt_l r1 r2 t g : lang r1 t g -> lang (Alt r1 r2) t g
| lang_Alt_r r1 r2 t g : lang r2 t g -> lang (Alt r1 r2) t g
| lang_Group name r t g : lang r t g -> lang (Group name r) t ((name, t) :: g).

(** Every character, for case analysis on a range. *)
Definition all_chars : list ascii :=
  map (fun n => ascii_of_nat n) (seq 0 256).

Definition chars_of (p : ascii -> bool) : list ascii := filter p all_chars.

End Re.

(** ** [datetime] *)

Module Datetime.

Definition MINYEAR : Z := 1.
Definition MAXYEAR : Z := 9999.

Definition _DAYS_IN_MONTH : list Z :=
  [-1; 31; 28; 31; 30; 31; 30; 31; 31; 30; 31; 30; 31].

(** [_DAYS_BEFORE_MONTH], built by the loop over [_DAYS_IN_MONTH[1:]]. *)
Definition _DAYS_BEFORE_MONTH : list Z :=
  fst (fold_left (fun '(acc, dbm) dim => ((acc ++ [dbm])%list, dbm + dim))
                 (tl _DAYS_IN_MONTH) ([-1], 0)).

Definition index (l : list Z) (i : Z) : Z := nth (Z.to_nat i) l 0.

Definition _is_leap (year : Z) : bool :=
  (year mod 4 =? 0) && (negb (year mod 100 =? 0) || (year mod 400 =? 0)).

Definition _days_before_year (year : Z) : Z :=
  let y := year - 1 in
  y * 365 + y / 4 - y / 100 + y / 400.

Definition _days_in_month (year month : Z) : Z :=
  if (month =? 2) && _is_leap year then 29 else index _DAYS_IN_MONTH month.

Definition _days_before_month (year month : Z) : Z :=
  index _DAYS_BEFORE_MONTH month
  + (if (2 <? month) && _is_leap year then 1 else 0).

Definition _ymd2ord (year month day : Z) : Z :=
  _days_before_year year + _days_before_month year month + day.

Record datetime := mkdatetime {
  year : Z;
  month : Z;
  day : Z;
  hour : Z;
  minute : Z;
  second : Z;
  microsecond : Z
}.

Record timedelta := mktimedelta {
  days : Z;
  seconds : Z;
  microseconds : Z
}.

(** [_check_date_fields] *)
Definition _check_date_fields (y m d : Z) : result unit :=
  if negb ((MINYEAR <=? y) && (y <=? MAXYEAR)) then
    Raise (ValueError "year must be in 1..9999")
  else if negb ((1 <=? m) && (m <=? 12)) then
    Raise (ValueError "month must be in 1..12")
  else if negb ((1 <=? d) && (d <=? _days_in_month y m)) then
    Raise (ValueError "day is out of range for month")
  else Ok tt.

(** [datetime(y, m, d)]: the time fields default to zero. *)
Definition new_datetime (y m d : Z) : result datetime :=
  _ <- _check_date_fields y m d ;;
  Ok (mkdatetime y m d 0 0 0 0).

Definition toordinal (dt : datetime) : Z :=
  _ymd2ord (year dt) (month dt) (day dt).

(** [dt.timetuple().tm_yday] *)
Definition tm_yday (dt : datetime) : Z :=
  _days_before_month (year dt) (month dt) + day dt.

(** [timedelta(days, seconds, microseconds)]: carries are normalised with
    floor division, and a day count beyond 999999999 is an error. *)
Definition new_timedelta (d s us : Z) : result timedelta :=
  let s' := s + us / 1000000 in
  let d' := d + s' / 86400 in
  if (Z.abs d' >? 999999999) then
    Raise (OverflowError "days out of range")
  else Ok (mktimedelta d' (s' mod 86400) (us mod 1000000)).

(** [a - b] on two naive datetimes. *)
Definition sub (a b : datetime) : result timedelta :=
  let days1 := toordinal a in
  let days2 := toordinal b in
  let secs1 := second a + minute a * 60 + hour a * 3600 in
  let secs2 := second b + minute b * 60 + hour b * 3600 in
  new_timedelta (days1 - days2) (secs1 - secs2)
                (microsecond a - microsecond b).

End Datetime.

(** ** [datetime.strptime(data_string, '%Y-%m-%d')]

    [_strptime] compiles the format to a regex out of the [TimeRE] table,
    matches it at the start of the data, insists that the match covers the
    whole string, converts each group with [int] and builds the date. *)

Module Strptime.

Import Re Datetime.

(** [TimeRE] entries of the three directives. *)
Definition directive_Y : regex :=
  Group "Y" (Seq Digit (Seq Digit (Seq Digit Digit))).

Definition directive_m : regex :=
  Group "m" (Alt (Seq (Lit "1") (Range "0" "2"))
            (Alt (Seq (Lit "0") (Range "1" "9"))
                 (Range "1" "9"))).

Definition directive_d : regex :=
  Group "d" (Alt (Seq (Lit "3") (Range "0" "1"))
            (Alt (Seq (Range "1" "2") Digit)
            (Alt (Seq (Lit "0") (Range "1" "9"))
            (Alt (Range "1" "9")
                 (Seq (Lit " ") (Range "1" "9")))))).

(** The regex of ['%Y-%m-%d']; [tail_regex] is what follows the year. *)
Definition tail_regex : regex :=
  Seq (Lit "-") (Seq directive_m (Seq (Lit "-") directive_d)).

Definition format_regex : regex := Seq directive_Y tail_regex.

(** ** [int(text)] in base 10: blanks around, an optional sign, digits
    with single underscores between them. *)

Definition is_space (c : ascii) : bool :=
  let n := N_of_ascii c in
  ((9 <=? n) && (n <=? 13) || (28 <=? n) && (n <=? 32)
   || (n =? 133) || (n =? 160))%N.

Fixpoint lstrip (s : string) : string :=
  match s with
  | String c rest => if is_space c then lstrip rest else s
  | EmptyString => s
  end.

(** Nothing but blanks: what may follow the last digit. *)
Fixpoint all_space (s : string) : bool :=
  match s with
  | String c rest => is_space c && all_space rest
  | EmptyString => true
  end.

Definition digit_value (c : ascii) : Z := Z.of_N (N_of_ascii c) - 48.

(** [digits acc s]: [s] is one digit (already in [acc]) followed by more
    digits, each possibly after one underscore, then only blanks. *)
Fixpoint digits (acc : Z) (s : string) : option Z :=
  match s with
  | EmptyString => Some acc
  | String c rest =>
      if is_digit c then digits (acc * 10 + digit_value c) rest
      else if Ascii.eqb c "_" then
        match rest with
        | String c' rest' =>
            if is_digit c' then digits (acc * 10 + digit_value c') rest'
            else None
        | EmptyString => None
        end
      else if all_space s then Some acc
      else None
  end.

Definition unsigned (s : string) : option Z :=
  match s with
  | String c rest => if is_digit c then digits (digit_value c) rest else None
  | EmptyString => None
  end.

Definition int (text : string) : result Z :=
  let invalid := Raise (ValueError "invalid literal for int() with base 10") in
  match lstrip text with
  | String "+" rest =>
      match unsigned rest with Some n => Ok n | None => invalid end
  | String "-" rest =>
      match unsigned rest with Some n => Ok (- n) | None => invalid end
  | s =>
      match unsigned s with Some n => Ok n | None => invalid end
  end.

(** The fields [_strptime] fills from the groups; [year] starts as [None]
    and falls back to 1900, month and day start at 1. *)
Record fields := mkfields {
  f_year : option Z;
  f_month : Z;
  f_day : Z
}.

Definition set_field (acc : fields) (g : string * string) : result fields :=
  let '(group_key, text) := g in
  if String.eqb group_key "Y" then
    n <- int text ;; Ok (mkfields (Some n) (f_month acc) (f_day acc))
  else if String.eqb group_key "m" then
    n <- int text ;; Ok (mkfields (f_year acc) n (f_day acc))
  else if String.eqb group_key "d" then
    n <- int text ;; Ok (mkfields (f_year acc) (f_month acc) n)
  else Ok acc.

Fixpoint set_fields (acc : fields) (gs : groupdict) : result fields :=
  match gs with
  | [] => Ok acc
  | g :: gs' => acc' <- set_field acc g ;; set_fields acc' gs'
  end.

(** The part of [_strptime] before the date is built: year, month, day. *)
Definition _strptime (data_string : string) : result (Z * Z * Z) :=
  match re_match format_regex data_string with
  | None => Raise (ValueError "time data does not match format")
  | Some found =>
      if negb (String.length data_string =? m_end found)%nat then
        Raise (ValueError "unconverted data remains")
      else
        f <- set_fields (mkfields None 1 1) (m_groups found) ;;
        let year := match f_year f with Some y => y | None => 1900 end in
        Ok (year, f_month f, f_day f)
  end.

Definition strptime (data_string : string) : result datetime :=
  ymd <- _strptime data_string ;;
  let '(y, m, d) := ymd in
  new_datetime y m d.

End Strptime.

(** ** [app.py] *)

(** The one-row [pd.DataFrame] of [create_features]: a column is the list
    the dict gives it. *)
Record DataFrame := mkDataFrame {
  Stage : list string;
  DayOfYear : list Z;
  DaysSinceStart : list Z
}.

(** What [render_template] is given: the template name and its keyword
    arguments. The template file is not part of the repository: a
    response stands for the call, and what rendering itself does, an
    exception of the template engine included, is not modelled. The same
    holds for the parsing of the form by [request.form]. *)
Inductive value : Type :=
| VNone
| VStr (s : string)
| VList (l : list string).

Record response := render_template {
  template : string;
  context : list (string * value)
}.

(** Calls a handler makes to the feature builder and to the classifier, in
    order. *)
Inductive event : Type :=
| CallCreateFeatures (date_str stage : string)
| CallModelPredict (X : option DataFrame).

Definition traced (A : Type) : Type := (list event * result A)%type.

Definition tret {A} (a : A) : traced A := ([], Ok a).

Definition tcall {A} (ev : event) (r : result A) : traced A := ([ev], r).

Definition tbind {A B} (c : traced A) (k : A -> traced B) : traced B :=
  match c with
  | (t1, Ok a) => let '(t2, r) := k a in ((t1 ++ t2)%list, r)
  | (t1, Raise e) => (t1, Raise e)
  end.

Notation "x <~ c ;; k" := (tbind c (fun x => k))
  (at level 61, c at next level, right associativity).

Definition UNIQUE_STAGES : list string :=
  ["Germination"; "Seedling"; "Vegetative Growth";
   "Tasseling & Pollination"; "Grain Filling"; "Maturity & Harvest"].

(** [request.form.get(key)]: the first value under [key], else [None]. *)
Fixpoint form_get (form : list (string * string)) (key : string) : option string :=
  match form with
  | [] => None
  | (k, v) :: rest => if String.eqb k key then Some v else form_get rest key
  end.

(** [f"{v}"] for a value that is a [str] or [None]. *)
Definition format_value (v : option string) : string :=
  match v with
  | Some s => s
  | None => "None"
  end.

Definition of_option (v : option string) : value :=
  match v with
  | Some s => VStr s
  | None => VNone
  end.

(** [xs[0]] *)
Definition first (xs : list string) : result string :=
  match xs with
  | x :: _ => Ok x
  | [] => Raise (IndexError "index 0 is out of bounds")
  end.

Section App.

Import Datetime Strptime.

(** Modelled from the spec: [start_date.joblib] is not in the repository;
    the spec calls its content the ReferenceStartDate, "a single calendar
    date loaded once at process startup". The code subtracts it from a
    [datetime], so it is a [datetime] here; the theorems that need it to
    be a calendar date say so. *)
Variable start_date : datetime.

(** [model.predict]: the classifier of [maize_disease_model.joblib],
    outside the repository. It returns the labels of the rows, or raises. *)
Variable model_predict : option DataFrame -> result (list string).

Definition create_features (date_str stage : string)
  : result (option DataFrame * option string) :=
  try_except_ValueError (strptime date_str)
    (Ok (None, Some "Invalid date format. Please use YYYY-MM-DD."))
    (fun current_date =>
       let day_of_year := tm_yday current_date in
       delta <- sub current_date start_date ;;
       let days_since_start := days delta in
       let data := {| Stage := [stage];
                      DayOfYear := [day_of_year];
                      DaysSinceStart := [days_since_start] |} in
       Ok (Some data, None)).

Definition index : response :=
  render_template "index.html"
    [("stages", VList UNIQUE_STAGES); ("prediction_text", VStr "")].

Definition page (prediction_text : string) (date_input stage_input : option string)
  : response :=
  render_template "index.html"
    [("stages", VList UNIQUE_STAGES);
     ("prediction_text", VStr prediction_text);
     ("date_val", of_option date_input);
     ("stage_val", of_option stage_input)].

Definition predict (form : list (string * string)) : traced response :=
  let date_input := form_get form "date_input" in
  let stage_input := form_get form "stage_input" in
  match date_input, stage_input with
  | Some date_str, Some stage =>
      if negb (truthy date_input) || negb (truthy stage_input) then
        tret (page "Error: Please provide both date and stage."
                   date_input stage_input)
      else
        r <~ tcall (CallCreateFeatures date_str stage)
                   (create_features date_str stage) ;;
        let '(X_new, error_message) := r in
        if truthy error_message then
          tret (page ("Error: " ++ format_value error_message)
                     date_input stage_input)
        else
          labels <~ tcall (CallModelPredict X_new) (model_predict X_new) ;;
          prediction <~ ([], first labels) ;;
          let result :=
            "The predicted disease for stage '" ++ stage ++ "' on "
            ++ date_str ++ " is: " ++ prediction in
          tret (page result date_input stage_input)
  | _, _ =>
      tret (page "Error: Please provide both date and stage."
                 date_input stage_input)
  end.

End App.

(** ** The calendar, as the specification speaks of it

    Independent of the tables of [datetime]: a year is the list of its
    dates in order, the day after a date is the next one in that order,
    and a day difference counts such steps. *)

Module Calendar.

Record date := mkdate {
  d_year : Z;
  d_month : Z;
  d_day : Z
}.

(** Gregorian rule: every fourth year, except the centuries that are not
    a multiple of 400. *)
Definition leap_year (y : Z) : bool :=
  if y mod 400 =? 0 then true
  else if y mod 100 =? 0 then false
  else y mod 4 =? 0.

Definition month_length (leap : bool) (m : Z) : Z :=
  match m with
  | 1 | 3 | 5 | 7 | 8 | 10 | 12 => 31
  | 4 | 6 | 9 | 11 => 30
  | 2 => if leap then 29 else 28
  | _ => 0
  end.

(** A date of the proleptic Gregorian calendar, from year 1 on. *)
Definition valid_date (y m d : Z) : Prop :=
  1 <= y /\ 1 <= m <= 12 /\ 1 <= d <= month_length (leap_year y) m.

Definition valid (a : date) : Prop :=
  valid_date (d_year a) (d_month a) (d_day a).

(** [1; 2; ...; n] *)
Definition upto (n : Z) : list Z :=
  map Z.of_nat (seq 1 (Z.to_nat n)).

(** The (month, day) pairs of a year, in calendar order. *)
Definition year_dates (leap : bool) : list (Z * Z) :=
  flat_map (fun m => map (fun d => (m, d)) (upto (month_length leap m)))
           (upto 12).

Definition same_day (a b : Z * Z) : bool :=
  (fst a =? fst b) && (snd a =? snd b).

(** How many entries come before the first occurrence of [x]. *)
Fixpoint position (x : Z * Z) (l : list (Z * Z)) : nat :=
  match l with
  | [] => O
  | h :: t => if same_day h x then O else S (position x t)
  end.

(** The 1-based ordinal day of month [m], day [d] within year [y]. *)
Definition ordinal_day (y m d : Z) : Z :=
  1 + Z.of_nat (position (m, d) (year_dates (leap_year y))).

Definition next_day (a : date) : date :=
  let '(mkdate y m d) := a in
  if d <? month_length (leap_year y) m then mkdate y m (d + 1)
  else if m <? 12 then mkdate y (m + 1) 1
  else mkdate (y + 1) 1 1.

(** The date [n] days after [a]. *)
Fixpoint add_days (n : nat) (a : date) : date :=
  match n with
  | O => a
  | S k => add_days k (next_day a)
  end.

(** [b] is [n] days after [a] when [n] is positive, [-n] days before it
    when [n] is negative. *)
Definition day_difference (a b : date) (n : Z) : Prop :=
  (0 <= n /\ add_days (Z.to_nat n) a = b)
  \/ (n < 0 /\ add_days (Z.to_nat (- n)) b = a).

(** [a] precedes [b]. *)
Definition before (a b : date) : Prop :=
  d_year a < d_year b
  \/ (d_year a = d_year b /\ d_month a < d_month b)
  \/ (d_year a = d_year b /\ d_month a = d_month b /\ d_day a < d_day b).

End Calendar.

(** ** Date texts, as the specification speaks of them *)

Module DateText.

Import Re Calendar.

(** Month and day texts that the format takes, with the number each one
    stands for. *)
Definition month_texts : list (string * Z) :=
  [("01", 1); ("02", 2); ("03", 3); ("04", 4); ("05", 5); ("06", 6);
   ("07", 7); ("08", 8); ("09", 9); ("10", 10); ("11", 11); ("12", 12);
   ("1", 1); ("2", 2); ("3", 3); ("4", 4); ("5", 5); ("6", 6);
   ("7", 7); ("8", 8); ("9", 9)].

Definition day_texts : list (string * Z) :=
  [("01", 1); ("02", 2); ("03", 3); ("04", 4); ("05", 5); ("06", 6);
   ("07", 7); ("08", 8); ("09", 9); ("10", 10); ("11", 11); ("12", 12);
   ("13", 13); ("14", 14); ("15", 15); ("16", 16); ("17", 17); ("18", 18);
   ("19", 19); ("20", 20); ("21", 21); ("22", 22); ("23", 23); ("24", 24);
   ("25", 25); ("26", 26); ("27", 27); ("28", 28); ("29", 29); ("30", 30);
   ("31", 31);
   ("1", 1); ("2", 2); ("3", 3); ("4", 4); ("5", 5); ("6", 6);
   ("7", 7); ("8", 8); ("9", 9);
   (" 1", 1); (" 2", 2); (" 3", 3); (" 4", 4); (" 5", 5); (" 6", 6);
   (" 7", 7); (" 8", 8); (" 9", 9)].

(** Membership in such a table, as a test. *)
Definition has_text (t : string) (n : Z) (table : list (string * Z)) : bool :=
  existsb (fun p => String.eqb (fst p) t && (snd p =? n)) table.

Definition digit (c : ascii) : Z := Z.of_N (N_of_ascii c) - 48.

Definition year_text (a b c e : ascii) : string :=
  String a (String b (String c (String e ""))).

Definition year_value (a b c e : ascii) : Z :=
  1000 * digit a + 100 * digit b + 10 * digit c + digit e.

(** [s] reads as year [y], month [m], day [d]: four digits, a dash, a
    month text, a dash, a day text. *)
Definition denotes (s : string) (y m d : Z) : Prop :=
  exists a b c e ms ds,
    s = year_text a b c e ++ "-" ++ ms ++ "-" ++ ds
    /\ is_digit a = true /\ is_digit b = true
    /\ is_digit c = true /\ is_digit e = true
    /\ y = year_value a b c e
    /\ In (ms, m) month_texts
    /\ In (ds, d) day_texts.

(** The two ways a date string is malformed. *)
Definition wrong_format (s : string) : Prop :=
  ~ exists y m d, denotes s y m d.

Definition impossible_date (s : string) : Prop :=
  exists y m d, denotes s y m d /\ ~ valid_date y m d.

Definition malformed (s : string) : Prop :=
  wrong_format s \/ impossible_date s.

(** A date string that parses as a valid calendar date. *)
Definition valid_date_string (s : string) (y m d : Z) : Prop :=
  denotes s y m d /\ valid_date y m d.

(** Zero-padded [YYYY-MM-DD]: ten characters, digits around two dashes. *)
Definition is_YYYY_MM_DD (s : string) : bool :=
  match s with
  | String a (String b (String c (String e (String h1
      (String m1 (String m2 (String h2 (String d1 (String d2 ""))))))))) =>
      is_digit a && is_digit b && is_digit c && is_digit e
      && Ascii.eqb h1 "-" && is_digit m1 && is_digit m2
      && Ascii.eqb h2 "-" && is_digit d1 && is_digit d2
  | _ => false
  end.

(** The text of a number from 1 to 9 without padding. *)
Definition unpadded (n : Z) : string :=
  String (ascii_of_N (Z.to_N (48 + n))) "".

(** [s] is in the zero-padded form YYYY-MM-DD, and its digits read as year
    [y], month [m], day [d]. *)
Definition reads_padded (s : string) (y m d : Z) : Prop :=
  exists a b c e m1 m2 d1 d2,
    s = year_text a b c e ++ "-" ++ String m1 (String m2 "")
        ++ "-" ++ String d1 (String d2 "")
    /\ is_digit a = true /\ is_digit b = true
    /\ is_digit c = true /\ is_digit e = true
    /\ is_digit m1 = true /\ is_digit m2 = true
    /\ is_digit d1 = true /\ is_digit d2 = true
    /\ y = year_value a b c e
    /\ m = 10 * digit m1 + digit m2
    /\ d = 10 * digit d1 + digit d2.

(** An impossible calendar date, written in the zero-padded form. *)
Definition impossible_padded_date (s : string) : Prop :=
  exists y m d, reads_padded s y m d /\ ~ valid_date y m d.

(** A string that is no date text by its shape alone: fewer than 8 or more
    than 10 characters, or something else than a dash in fifth place. *)
Definition wrong_shape (s : string) : Prop :=
  (String.length s < 8)%nat \/ (10 < String.length s)%nat
  \/ String.get 4 s <> Some "-"%char.

(** The date strings that are turned down: those on which the parse with
    ['%Y-%m-%d'] raises, among them the impossible dates in zero-padded
    form and the strings of a wrong shape. *)
Definition unparsable (s : string) : Prop :=
  (exists e, Strptime.strptime s = Raise e)
  \/ impossible_padded_date s
  \/ wrong_shape s.

End DateText.

(** ** What a response and a trace show *)

(** The [prediction_text] handed to the template: the message the user is
    shown. *)
Fixpoint lookup (key : string) (ctx : list (string * value)) : option value :=
  match ctx with
  | [] => None
  | (k, v) :: rest => if String.eqb k key then Some v else lookup key rest
  end.

Definition message (r : response) : option value :=
  lookup "prediction_text" (context r).

Definition is_classifier_call (ev : event) : bool :=
  match ev with
  | CallModelPredict _ => true
  | CallCreateFeatures _ _ => false
  end.

(** An empty form field: absent, or the empty string. *)
Definition empty_field (v : option string) : Prop :=
  v = None \/ v = Some "".

(** The invariant of a [datetime] object: a date that passes
    [_check_date_fields] and a time of day within its ranges. *)
Definition valid_datetime (dt : Datetime.datetime) : Prop :=
  Datetime._check_date_fields (Datetime.year dt) (Datetime.month dt)
                              (Datetime.day dt) = Ok tt
  /\ 0 <= Datetime.hour dt < 24
  /\ 0 <= Datetime.minute dt < 60
  /\ 0 <= Datetime.second dt < 60
  /\ 0 <= Datetime.microsecond dt < 1000000.

(** A [datetime] that is a calendar date: midnight. *)
Definition is_calendar_date (dt : Datetime.datetime) : Prop :=
  Datetime.hour dt = 0 /\ Datetime.minute dt = 0
  /\ Datetime.second dt = 0 /\ Datetime.microsecond dt = 0.

Definition date_of (dt : Datetime.datetime) : Calendar.date :=
  Calendar.mkdate (Datetime.year dt) (Datetime.month dt) (Datetime.day dt).

(** [toordinal] of the datetime of a date. *)
Definition ordinal (a : Calendar.date) : Z :=
  Datetime._ymd2ord (Calendar.d_year a) (Calendar.d_month a) (Calendar.d_day a).

Definition INVALID_DATE : string :=
  "Invalid date format. Please use YYYY-MM-DD.".

(** The reference start date of the specification's first end-to-end
    scenario, 2024-01-01. *)
Definition scenario_start_date : Datetime.datetime :=
  Datetime.mkdatetime 2024 1 1 0 0 0 0.

(** A classifier that answers the same label for every row: a stand-in to
    run the handler on a concrete request. *)
Definition constant_model (label : string)
  : option DataFrame -> result (list string) :=
  fun _ => Ok [label].

(** ** Start-up: the two [joblib.load] calls at the top of [app.py] *)

(** [except FileNotFoundError] *)
Definition is_FileNotFoundError (e : exn) : bool :=
  match e with
  | OtherError cls _ => String.eqb cls "FileNotFoundError"
  | _ => false
  end.

Definition MODEL_FILE : string := "maize_disease_model.joblib".
Definition START_DATE_FILE : string := "start_date.joblib".

Definition STARTUP_ERROR : string :=
  "Error: Model or start date file not found. Ensure 'maize_disease_model.joblib' and 'start_date.joblib' are in the same directory.".

(** How the module body ends: both globals bound, or the process left
    through [exit()] after a [print], or an exception that was not caught.
    [exit()] without an argument ends the process with status 0. *)
Inductive startup_outcome (Obj : Type) : Type :=
| Loaded (model start_date : Obj)
| Exited (printed : string) (status : Z)
| Crashed (e : exn).
Arguments Loaded {Obj} model start_date.
Arguments Exited {Obj} printed status.
Arguments Crashed {Obj} e.

Section Startup.

(** The loaded objects and [joblib.load] on the files of the working
    directory: both are outside the repository. *)
Variable Obj : Type.
Variable joblib_load : string -> result Obj.

(** The files opened, in order, and the outcome. *)
Definition startup : list string * startup_outcome Obj :=
  match joblib_load MODEL_FILE with
  | Ok model =>
      match joblib_load START_DATE_FILE with
      | Ok start_date => ([MODEL_FILE; START_DATE_FILE], Loaded model start_date)
      | Raise e =>
          ([MODEL_FILE; START_DATE_FILE],
           if is_FileNotFoundError e then Exited STARTUP_ERROR 0
           else Crashed e)
      end
  | Raise e =>
      ([MODEL_FILE],
       if is_FileNotFoundError e then Exited STARTUP_ERROR 0 else Crashed e)
  end.

End Startup.

(** What [(current_date - start_date).days] loses when the start date has
    a time of day: the carry of the negated time into the days. *)
Definition time_carry (dt : Datetime.datetime) : Z :=
  (- (Datetime.second dt + Datetime.minute dt * 60 + Datetime.hour dt * 3600)
   + (- Datetime.microsecond dt) / 1000000) / 86400.

(** * Proofs *)

(** ** The regex engine *)

Module ReFacts.

Import Re.

Lemma append_nil_r (s : string) : s ++ "" = s.
Proof. induction s as [|c s IH]; simpl; congruence. Qed.

Lemma append_assoc (a b c : string) : (a ++ b) ++ c = a ++ (b ++ c).
Proof. induction a as [|x a IH]; simpl; congruence. Qed.

Lemma length_append (a b : string) :
  String.length (a ++ b) = (String.length a + String.length b)%nat.
Proof. induction a as [|x a IH]; simpl; congruence. Qed.

Lemma append_length_eq (a b : string) :
  String.length (a ++ b) = String.length a -> b = "".
Proof.
  rewrite length_append. destruct b; simpl; [reflexivity | lia].
Qed.

Lemma one_char_sound p s m :
  In m (one_char p s) ->
  exists c, p c = true /\ m = mkMatch [] (String c "") (m_rest m)
            /\ s = String c (m_rest m).
Proof.
  destruct s as [|a rest]; simpl; [tauto|].
  destruct (p a) eqn:E; simpl; [|tauto].
  intros [<-|[]]. exists a. auto.
Qed.

(** A match splits the subject into the matched text and the rest, and
    the text with its groups is a word of the regex. *)
Lemma run_sound r : forall s m,
  In m (run r s) ->
  s = m_text m ++ m_rest m /\ lang r (m_text m) (m_groups m).
Proof.
  induction r as [c|lo hi| |r1 IH1 r2 IH2|r1 IH1 r2 IH2|name r IH];
    intros s m Hin; simpl in Hin.
  - apply one_char_sound in Hin as (a & Ha & -> & ->); simpl.
    apply Ascii.eqb_eq in Ha as <-. split; [reflexivity | constructor].
  - apply one_char_sound in Hin as (a & Ha & -> & ->); simpl.
    split; [reflexivity | now constructor].
  - apply one_char_sound in Hin as (a & Ha & -> & ->); simpl.
    split; [reflexivity | now constructor].
  - apply in_flat_map in Hin as (m1 & H1 & Hin).
    apply in_map_iff in Hin as (m2 & <- & H2). simpl.
    apply IH1 in H1 as [E1 L1]. apply IH2 in H2 as [E2 L2].
    split; [|now constructor].
    rewrite append_assoc, <- E2. exact E1.
  - apply in_app_or in Hin as [H|H]; [apply IH1 in H | apply IH2 in H];
      destruct H as [E L]; split; auto using lang.
  - apply in_map_iff in Hin as (m1 & <- & H1). simpl.
    apply IH in H1 as [E L]. split; [exact E | now constructor].
Qed.

Lemma re_match_sound r s m :
  re_match r s = Some m ->
  s = m_text m ++ m_rest m /\ lang r (m_text m) (m_groups m).
Proof.
  unfold re_match. intros H. apply run_sound.
  destruct (run r s); simpl in H; [discriminate|].
  injection H as ->. now left.
Qed.

Lemma all_chars_complete (c : ascii) : In c all_chars.
Proof.
  unfold all_chars. apply in_map_iff. exists (nat_of_ascii c).
  split; [apply ascii_nat_embedding|].
  apply in_seq. pose proof (nat_ascii_bounded c). lia.
Qed.

Lemma chars_of_complete p c : p c = true -> In c (chars_of p).
Proof.
  intros H. apply filter_In. split; [apply all_chars_complete | exact H].
Qed.

End ReFacts.

(** ** [strptime] against the date texts *)

Module StrptimeFacts.

Import Re ReFacts Datetime Strptime Calendar DateText.

Ltac inv H := inversion H; subst; clear H.

(** Splits a membership in a literal list into its cases. *)
Ltac in_cases H :=
  simpl in H;
  repeat (destruct H as [H|H]; [inv H|]);
  try contradiction.

(** Turns a range test on a character into the characters it admits. *)
Ltac range_cases H :=
  apply chars_of_complete in H; vm_compute in H;
  repeat (destruct H as [H|H]; [subst|]);
  try contradiction.

Lemma digit_not_space c : is_digit c = true -> is_space c = false.
Proof. intros H. range_cases H; reflexivity. Qed.

Lemma digits_step acc c rest :
  is_digit c = true ->
  digits acc (String c rest) = digits (acc * 10 + digit_value c) rest.
Proof. intros H. simpl. now rewrite H. Qed.

Lemma int_digit_start a rest :
  is_digit a = true ->
  int (String a rest) =
  match digits (digit_value a) rest with
  | Some n => Ok n
  | None => Raise (ValueError "invalid literal for int() with base 10")
  end.
Proof. intros Ha. range_cases Ha; reflexivity. Qed.

Lemma int_year a b c e :
  is_digit a = true -> is_digit b = true ->
  is_digit c = true -> is_digit e = true ->
  int (year_text a b c e) = Ok (year_value a b c e).
Proof.
  intros Ha Hb Hc He. unfold year_text.
  rewrite (int_digit_start _ _ Ha), !digits_step by assumption.
  cbn [digits]. f_equal. unfold year_value, digit, digit_value. lia.
Qed.

Lemma has_text_In t n table : has_text t n table = true -> In (t, n) table.
Proof.
  unfold has_text. intros H. apply existsb_exists in H as ([t' n'] & Hin & H).
  apply andb_true_iff in H as [Ht Hn]. simpl in Ht, Hn.
  apply String.eqb_eq in Ht as <-. apply Z.eqb_eq in Hn as <-. exact Hin.
Qed.

(** Closes a goal about one concrete month or day text. *)
Ltac solve_text :=
  match goal with
  | |- exists n, In (?t, n) _ /\ _ /\ _ =>
      exists (match int t with Ok n => n | Raise _ => 0 end);
      split; [apply has_text_In | split; [reflexivity |]];
      vm_compute; reflexivity
  end.

Lemma lang_directive_Y t g :
  lang directive_Y t g ->
  exists a b c e,
    is_digit a = true /\ is_digit b = true /\
    is_digit c = true /\ is_digit e = true /\
    t = year_text a b c e /\ g = [("Y", t)].
Proof.
  unfold directive_Y. intros H. inv H.
  repeat match goal with
         | H : lang (Seq _ _) _ _ |- _ => inv H
         | H : lang Digit _ _ |- _ => inv H
         end.
  eauto 12.
Qed.

Lemma lang_directive_m t g :
  lang directive_m t g ->
  exists m, In (t, m) month_texts /\ g = [("m", t)] /\ int t = Ok m.
Proof.
  unfold directive_m. intros H. inv H.
  repeat match goal with
         | H : lang (Alt _ _) _ _ |- _ => inv H
         | H : lang (Seq _ _) _ _ |- _ => inv H
         | H : lang (Lit _) _ _ |- _ => inv H
         | H : lang (Range _ _) _ _ |- _ => inv H
         end;
  repeat match goal with
         | H : in_range _ _ _ = true |- _ => range_cases H
         end;
  solve_text.
Qed.

Lemma lang_directive_d t g :
  lang directive_d t g ->
  exists d, In (t, d) day_texts /\ g = [("d", t)] /\ int t = Ok d.
Proof.
  unfold directive_d. intros H. inv H.
  repeat match goal with
         | H : lang (Alt _ _) _ _ |- _ => inv H
         | H : lang (Seq _ _) _ _ |- _ => inv H
         | H : lang (Lit _) _ _ |- _ => inv H
         | H : lang (Range _ _) _ _ |- _ => inv H
         | H : lang Digit _ _ |- _ => inv H
         end;
  repeat match goal with
         | H : in_range _ _ _ = true |- _ => range_cases H
         | H : is_digit _ = true |- _ => range_cases H
         end;
  solve_text.
Qed.

Lemma set_fields_ymd ty tm td y m d :
  int ty = Ok y -> int tm = Ok m -> int td = Ok d ->
  set_fields (mkfields None 1 1) [("Y", ty); ("m", tm); ("d", td)]
  = Ok (mkfields (Some y) m d).
Proof.
  intros Hy Hm Hd. cbn -[int]. rewrite Hy. cbn -[int]. rewrite Hm.
  cbn -[int]. rewrite Hd. reflexivity.
Qed.

(** What [_strptime] accepts reads as the year, month and day it
    returns. *)
Lemma _strptime_sound s y m d :
  _strptime s = Ok (y, m, d) -> denotes s y m d.
Proof.
  unfold _strptime.
  destruct (re_match format_regex s) as [[g t rest]|] eqn:Hm; [|discriminate].
  unfold m_end; simpl.
  destruct (Nat.eqb (String.length s) (String.length t)) eqn:Hlen;
    simpl; [|discriminate].
  apply re_match_sound in Hm as [Hs Hl]. simpl in Hs, Hl.
  apply Nat.eqb_eq in Hlen. rewrite Hs in Hlen.
  apply append_length_eq in Hlen. subst rest. rewrite append_nil_r in Hs.
  subst t. unfold format_regex, tail_regex in Hl.
  inv Hl.
  match goal with H : lang (Seq (Lit _) _) _ _ |- _ => inv H end.
  match goal with H : lang (Seq directive_m _) _ _ |- _ => inv H end.
  match goal with H : lang (Seq (Lit _) _) _ _ |- _ => inv H end.
  repeat match goal with H : lang (Lit _) _ _ |- _ => inv H end.
  match goal with H : lang directive_Y _ _ |- _ =>
    apply lang_directive_Y in H as (a & b & c & e & Ha & Hb & Hc & He & -> & ->)
  end.
  match goal with H : lang directive_m _ _ |- _ =>
    apply lang_directive_m in H as (m' & Hmt & -> & Him)
  end.
  match goal with H : lang directive_d _ _ |- _ =>
    apply lang_directive_d in H as (d' & Hdt & -> & Hid)
  end.
  simpl app.
  rewrite (set_fields_ymd _ _ _ _ _ _ (int_year a b c e Ha Hb Hc He) Him Hid).
  simpl. intros H. inv H.
  exists a, b, c, e. do 2 eexists. repeat split; eauto.
Qed.

Lemma run_after_year r a b c e rest :
  is_digit a = true -> is_digit b = true ->
  is_digit c = true -> is_digit e = true ->
  run (Seq directive_Y r) (year_text a b c e ++ rest) =
  map (fun m2 => mkMatch (("Y", year_text a b c e) :: m_groups m2)
                         (year_text a b c e ++ m_text m2) (m_rest m2))
      (run r rest).
Proof.
  intros Ha Hb Hc He. simpl. rewrite Ha. simpl. rewrite Hb. simpl.
  rewrite Hc. simpl. rewrite He. simpl.
  now rewrite app_nil_r.
Qed.

(** The first match of what follows the year, for every month and day
    text of the tables. *)
Lemma run_tail ms m ds d :
  In (ms, m) month_texts -> In (ds, d) day_texts ->
  hd_error (run tail_regex ("-" ++ ms ++ "-" ++ ds))
  = Some (mkMatch [("m", ms); ("d", ds)] ("-" ++ ms ++ "-" ++ ds) "")
  /\ int ms = Ok m /\ int ds = Ok d.
Proof.
  intros Hm Hd. unfold month_texts in Hm. unfold day_texts in Hd.
  in_cases Hm; in_cases Hd; vm_compute; auto.
Qed.

(** Every text that reads as a year, month and day is accepted, with
    those numbers. *)
Lemma _strptime_complete s y m d :
  denotes s y m d -> _strptime s = Ok (y, m, d).
Proof.
  intros (a & b & c & e & ms & ds & -> & Ha & Hb & Hc & He & -> & Hm & Hd).
  destruct (run_tail _ _ _ _ Hm Hd) as (Hrun & Him & Hid).
  unfold _strptime, re_match, format_regex.
  rewrite run_after_year by assumption.
  destruct (run tail_regex ("-" ++ ms ++ "-" ++ ds)) as [|m2 l];
    simpl in Hrun; [discriminate|].
  inv Hrun. cbn [map hd_error m_groups m_text m_rest m_end].
  rewrite Nat.eqb_refl. cbn [negb].
  rewrite (set_fields_ymd _ _ _ _ _ _ (int_year a b c e Ha Hb Hc He) Him Hid).
  reflexivity.
Qed.

Lemma _strptime_denotes s y m d :
  _strptime s = Ok (y, m, d) <-> denotes s y m d.
Proof. split; [apply _strptime_sound | apply _strptime_complete]. Qed.

End StrptimeFacts.

(** ** [datetime] against the calendar *)

Module DatetimeFacts.

Import Datetime Calendar.

Lemma _is_leap_leap_year y : _is_leap y = leap_year y.
Proof.
  unfold _is_leap, leap_year.
  destruct (Z.eqb_spec (y mod 400) 0), (Z.eqb_spec (y mod 100) 0),
           (Z.eqb_spec (y mod 4) 0); simpl; try reflexivity;
    exfalso; Z.div_mod_to_equations; lia.
Qed.

Lemma _days_in_month_length y m :
  1 <= m <= 12 -> _days_in_month y m = month_length (leap_year y) m.
Proof.
  intros Hm. unfold _days_in_month. rewrite _is_leap_leap_year.
  assert (m = 1 \/ m = 2 \/ m = 3 \/ m = 4 \/ m = 5 \/ m = 6 \/ m = 7
          \/ m = 8 \/ m = 9 \/ m = 10 \/ m = 11 \/ m = 12) as C by lia.
  destruct (leap_year y);
    repeat (destruct C as [C|C]; [subst m; reflexivity|]);
    subst m; reflexivity.
Qed.

Lemma _days_before_month_leap y m :
  _days_before_month y m
  = index _DAYS_BEFORE_MONTH m
    + (if (2 <? m) && leap_year y then 1 else 0).
Proof. unfold _days_before_month. now rewrite _is_leap_leap_year. Qed.

(** [_check_date_fields] accepts the calendar dates of years 1 to 9999. *)
Lemma _check_date_fields_valid y m d :
  _check_date_fields y m d = Ok tt <-> valid_date y m d /\ y <= 9999.
Proof.
  unfold _check_date_fields, valid_date, MINYEAR, MAXYEAR.
  destruct (Z.leb_spec 1 y), (Z.leb_spec y 9999); simpl;
    try (split; [discriminate | lia]).
  destruct (Z.leb_spec 1 m), (Z.leb_spec m 12); simpl;
    try (split; [discriminate | lia]).
  rewrite _days_in_month_length by lia.
  destruct (Z.leb_spec 1 d), (Z.leb_spec d (month_length (leap_year y) m));
    simpl; try (split; [discriminate | lia]).
  split; [lia | reflexivity].
Qed.

Lemma _check_date_fields_raises y m d e :
  _check_date_fields y m d = Raise e -> is_ValueError e = true.
Proof.
  unfold _check_date_fields.
  repeat match goal with
         | |- context [if ?b then _ else _] => destruct b
         end; intros H; inversion H; reflexivity.
Qed.

Lemma In_upto k n : 1 <= k <= n -> In k (upto n).
Proof.
  intros H. unfold upto. apply in_map_iff. exists (Z.to_nat k).
  split; [lia|]. apply in_seq. lia.
Qed.

Lemma In_year_dates y m d :
  valid_date y m d -> In (m, d) (year_dates (leap_year y)).
Proof.
  intros (_ & Hm & Hd). unfold year_dates. apply in_flat_map.
  exists m. split; [now apply In_upto|].
  apply in_map_iff. exists d. split; [reflexivity | now apply In_upto].
Qed.

(** Along the list of a year's dates, the position of a date is what the
    table of [_DAYS_BEFORE_MONTH] and the day give. *)
Lemma position_table leap :
  forallb (fun p =>
             1 + Z.of_nat (position p (year_dates leap))
             =? index _DAYS_BEFORE_MONTH (fst p)
                + (if (2 <? fst p) && leap then 1 else 0) + snd p)
          (year_dates leap) = true.
Proof. destruct leap; vm_compute; reflexivity. Qed.

Lemma _days_before_month_ordinal_day y m d :
  valid_date y m d -> _days_before_month y m + d = ordinal_day y m d.
Proof.
  intros Hv. rewrite _days_before_month_leap. unfold ordinal_day.
  pose proof (position_table (leap_year y)) as T.
  rewrite forallb_forall in T. specialize (T _ (In_year_dates _ _ _ Hv)).
  cbn beta in T. apply Z.eqb_eq in T. cbn [fst snd] in T. lia.
Qed.

Lemma ordinal_day_bounds y m d :
  valid_date y m d ->
  1 <= ordinal_day y m d <= 365 + (if leap_year y then 1 else 0).
Proof.
  intros Hv. pose proof (In_year_dates _ _ _ Hv) as Hin.
  unfold ordinal_day. revert Hin. generalize (m, d) as p.
  intros p Hin.
  assert (forallb (fun p => (position p (year_dates (leap_year y))
                              <? 365 + (if leap_year y then 1 else 0))%nat)
                  (year_dates (leap_year y)) = true) as T
    by (destruct (leap_year y); vm_compute; reflexivity).
  rewrite forallb_forall in T. specialize (T _ Hin).
  apply Nat.ltb_lt in T. destruct (leap_year y); lia.
Qed.

Lemma _days_before_year_succ y :
  _days_before_year (y + 1)
  = _days_before_year y + 365 + (if leap_year y then 1 else 0).
Proof.
  unfold _days_before_year, leap_year. replace (y + 1 - 1) with y by lia.
  destruct (Z.eqb_spec (y mod 400) 0), (Z.eqb_spec (y mod 100) 0),
           (Z.eqb_spec (y mod 4) 0); cbv zeta;
    Z.div_mod_to_equations; lia.
Qed.

Lemma _days_before_year_mono y1 y2 :
  y1 <= y2 -> _days_before_year y1 + 365 * (y2 - y1) <= _days_before_year y2.
Proof.
  intros H. replace y2 with (y1 + Z.of_nat (Z.to_nat (y2 - y1))) by lia.
  generalize (Z.to_nat (y2 - y1)) as n. clear H y2.
  induction n as [|n IH]; [rewrite Z.add_0_r; lia|].
  replace (y1 + Z.of_nat (S n)) with (y1 + Z.of_nat n + 1) by lia.
  rewrite _days_before_year_succ.
  destruct (leap_year (y1 + Z.of_nat n)); lia.
Qed.

(** Case analysis on a month number. *)
Ltac month_cases m :=
  let C := fresh "C" in
  assert (m = 1 \/ m = 2 \/ m = 3 \/ m = 4 \/ m = 5 \/ m = 6 \/ m = 7
          \/ m = 8 \/ m = 9 \/ m = 10 \/ m = 11 \/ m = 12) as C by lia;
  repeat (destruct C as [C|C]; [subst m|]); [..|subst m].

Lemma month_length_pos leap m : 1 <= m <= 12 -> 1 <= month_length leap m.
Proof. intros Hm. destruct leap; month_cases m; simpl; lia. Qed.

Lemma _days_before_month_step y m :
  1 <= m < 12 ->
  _days_before_month y (m + 1)
  = _days_before_month y m + month_length (leap_year y) m.
Proof.
  intros Hm. rewrite !_days_before_month_leap.
  destruct (leap_year y); month_cases m; try reflexivity; lia.
Qed.

Lemma _days_before_month_mono y m1 m2 :
  1 <= m1 -> m1 <= m2 -> m2 <= 12 ->
  _days_before_month y m1 <= _days_before_month y m2.
Proof.
  intros H1 H12 H2.
  replace m2 with (m1 + Z.of_nat (Z.to_nat (m2 - m1))) in * by lia.
  revert H2. generalize (Z.to_nat (m2 - m1)) as n. clear H12.
  induction n as [|n IH]; intros H2; [rewrite Z.add_0_r; lia|].
  replace (m1 + Z.of_nat (S n)) with (m1 + Z.of_nat n + 1) in * by lia.
  rewrite _days_before_month_step by lia.
  pose proof (month_length_pos (leap_year y) (m1 + Z.of_nat n) ltac:(lia)).
  specialize (IH ltac:(lia)). lia.
Qed.

Lemma ordinal_split a :
  valid a ->
  ordinal a = _days_before_year (d_year a)
              + ordinal_day (d_year a) (d_month a) (d_day a).
Proof.
  intros Hv. unfold ordinal, _ymd2ord.
  rewrite <- (_days_before_month_ordinal_day _ _ _ Hv). lia.
Qed.

(** The day after a date has the next ordinal. *)
Lemma ordinal_next_day a : valid a -> ordinal (next_day a) = ordinal a + 1.
Proof.
  destruct a as [y m d]. intros (Hy & Hm & Hd). simpl in Hy, Hm, Hd.
  unfold next_day, ordinal, _ymd2ord.
  destruct (Z.ltb_spec d (month_length (leap_year y) m)); simpl; [lia|].
  destruct (Z.ltb_spec m 12); simpl.
  - rewrite _days_before_month_step by lia. lia.
  - assert (m = 12) by lia. subst m.
    rewrite _days_before_year_succ, !_days_before_month_leap.
    destruct (leap_year y), (leap_year (y + 1)); simpl in *;
      unfold index; simpl; lia.
Qed.

Lemma valid_next_day a : valid a -> valid (next_day a).
Proof.
  destruct a as [y m d]. intros (Hy & Hm & Hd). simpl in Hy, Hm, Hd.
  unfold next_day, valid, valid_date.
  destruct (Z.ltb_spec d (month_length (leap_year y) m)); simpl; [lia|].
  destruct (Z.ltb_spec m 12); simpl.
  - pose proof (month_length_pos (leap_year y) (m + 1) ltac:(lia)).
    repeat split; lia.
  - repeat split; lia.
Qed.

(** Ordinals follow the order of the calendar. *)
Lemma ordinal_before a b :
  valid a -> valid b -> before a b -> ordinal a < ordinal b.
Proof.
  intros Ha Hb Hlt.
  pose proof (ordinal_day_bounds _ _ _ Ha) as Ba.
  pose proof (ordinal_day_bounds _ _ _ Hb) as Bb.
  destruct Hlt as [Hy | [[Hy Hm] | (Hy & Hm & Hd)]].
  - rewrite (ordinal_split a Ha), (ordinal_split b Hb).
    pose proof (_days_before_year_succ (d_year a)) as S1.
    pose proof (_days_before_year_mono (d_year a + 1) (d_year b)
                  ltac:(lia)) as M.
    lia.
  - unfold ordinal, _ymd2ord. rewrite Hy.
    destruct Ha as (_ & Hma & Hda), Hb as (_ & Hmb & Hdb).
    pose proof (_days_before_month_step (d_year b) (d_month a)
                  ltac:(lia)) as S1.
    pose proof (_days_before_month_mono (d_year b) (d_month a + 1)
                  (d_month b) ltac:(lia) ltac:(lia) ltac:(lia)) as M.
    rewrite Hy in Hda. lia.
  - unfold ordinal, _ymd2ord. rewrite Hy, Hm. lia.
Qed.

Lemma before_total a b : before a b \/ a = b \/ before b a.
Proof.
  destruct a as [ya ma da], b as [yb mb db]. unfold before. simpl.
  destruct (Z.lt_trichotomy ya yb) as [?|[?|?]]; [lia| |lia].
  destruct (Z.lt_trichotomy ma mb) as [?|[?|?]]; [lia| |lia].
  destruct (Z.lt_trichotomy da db) as [?|[?|?]]; [lia| |lia].
  right. left. congruence.
Qed.

Lemma ordinal_inj a b :
  valid a -> valid b -> ordinal a = ordinal b -> a = b.
Proof.
  intros Ha Hb E.
  destruct (before_total a b) as [H|[H|H]]; [|exact H|].
  - pose proof (ordinal_before _ _ Ha Hb H). lia.
  - pose proof (ordinal_before _ _ Hb Ha H). lia.
Qed.

Lemma ordinal_bounds a :
  valid a -> d_year a <= 9999 -> 1 <= ordinal a <= 3652060.
Proof.
  intros Ha Hy. rewrite (ordinal_split a Ha).
  pose proof (ordinal_day_bounds _ _ _ Ha) as B.
  destruct Ha as (H1 & _).
  pose proof (_days_before_year_mono 1 (d_year a) ltac:(lia)) as L.
  pose proof (_days_before_year_mono (d_year a) 9999 ltac:(lia)) as U.
  change (_days_before_year 1) with 0 in L.
  change (_days_before_year 9999) with 3651694 in U.
  destruct (leap_year (d_year a)); lia.
Qed.

Lemma add_days_ordinal n : forall a,
  valid a ->
  valid (add_days n a) /\ ordinal (add_days n a) = ordinal a + Z.of_nat n.
Proof.
  induction n as [|n IH]; intros a Ha; simpl add_days.
  - split; [exact Ha | lia].
  - destruct (IH _ (valid_next_day _ Ha)) as [V E]. split; [exact V|].
    rewrite E, ordinal_next_day by exact Ha. lia.
Qed.

Lemma add_days_reach a b :
  valid a -> valid b -> ordinal a <= ordinal b ->
  add_days (Z.to_nat (ordinal b - ordinal a)) a = b.
Proof.
  intros Ha Hb Hle.
  destruct (add_days_ordinal (Z.to_nat (ordinal b - ordinal a)) a Ha)
    as [V E].
  apply ordinal_inj; [exact V | exact Hb | lia].
Qed.

(** The difference of the ordinals is the day difference, and the only
    one. *)
Lemma day_difference_ordinal a b n :
  valid a -> valid b ->
  day_difference a b n <-> n = ordinal b - ordinal a.
Proof.
  intros Ha Hb. unfold day_difference. split.
  - intros [[Hn E] | [Hn E]].
    + destruct (add_days_ordinal (Z.to_nat n) a Ha) as [_ O].
      rewrite E in O. lia.
    + destruct (add_days_ordinal (Z.to_nat (- n)) b Hb) as [_ O].
      rewrite E in O. lia.
  - intros ->.
    destruct (Z.le_gt_cases (ordinal a) (ordinal b)) as [H|H].
    + left. split; [lia|]. now apply add_days_reach.
    + right. split; [lia|].
      replace (- (ordinal b - ordinal a)) with (ordinal a - ordinal b) by lia.
      apply add_days_reach; [exact Hb | exact Ha | lia].
Qed.

End DatetimeFacts.

(** ** The feature builder and the handler *)

Module AppFacts.

Import Re ReFacts Datetime Strptime Calendar DateText.
Import StrptimeFacts DatetimeFacts.

Lemma digit_bounds c : is_digit c = true -> 0 <= digit c <= 9.
Proof. intros H. range_cases H; vm_compute; split; discriminate. Qed.

Lemma year_value_bounds a b c e :
  is_digit a = true -> is_digit b = true ->
  is_digit c = true -> is_digit e = true ->
  0 <= year_value a b c e <= 9999.
Proof.
  intros Ha Hb Hc He. unfold year_value.
  pose proof (digit_bounds _ Ha). pose proof (digit_bounds _ Hb).
  pose proof (digit_bounds _ Hc). pose proof (digit_bounds _ He). lia.
Qed.

Lemma denotes_year_bound s y m d : denotes s y m d -> y <= 9999.
Proof.
  intros (a & b & c & e & ms & ds & _ & Ha & Hb & Hc & He & -> & _).
  apply year_value_bounds; assumption.
Qed.

(** A text reads as at most one date. *)
Lemma denotes_functional s y m d y' m' d' :
  denotes s y m d -> denotes s y' m' d' -> y = y' /\ m = m' /\ d = d'.
Proof.
  intros H H'. apply _strptime_complete in H, H'.
  rewrite H in H'. inv H'. auto.
Qed.

(** [strptime] succeeds exactly on the texts that read as a valid date,
    and returns that date at midnight. *)
Lemma strptime_Ok s dt :
  strptime s = Ok dt <->
  exists y m d, valid_date_string s y m d /\ dt = mkdatetime y m d 0 0 0 0.
Proof.
  unfold strptime, valid_date_string. split.
  - destruct (_strptime s) as [[[y m] d]|] eqn:E; simpl; [|discriminate].
    unfold new_datetime.
    destruct (_check_date_fields y m d) as [[]|] eqn:C; simpl; [|discriminate].
    intros H. inv H. apply _strptime_sound in E.
    apply _check_date_fields_valid in C as [V _]. eauto 6.
  - intros (y & m & d & [D V] & ->).
    pose proof (denotes_year_bound _ _ _ _ D) as B.
    apply _strptime_complete in D. rewrite D. simpl. unfold new_datetime.
    rewrite (proj2 (_check_date_fields_valid y m d) (conj V B)).
    reflexivity.
Qed.

Lemma int_raises t e : int t = Raise e -> is_ValueError e = true.
Proof.
  unfold int.
  repeat match goal with
         | |- context [match ?x with _ => _ end] => destruct x
         end; intros H; inversion H; reflexivity.
Qed.

Lemma set_fields_raises gs : forall acc e,
  set_fields acc gs = Raise e -> is_ValueError e = true.
Proof.
  induction gs as [|[k t] gs IH]; intros acc e; simpl; [discriminate|].
  repeat match goal with
         | |- context [if ?b then _ else _] => destruct b
         end; simpl;
    try (destruct (int t) eqn:E; simpl;
         [apply IH | intros H; inv H; eapply int_raises; eassumption]).
  apply IH.
Qed.

(** The only exception of [strptime] is [ValueError]. *)
Lemma strptime_raises s e : strptime s = Raise e -> is_ValueError e = true.
Proof.
  unfold strptime, _strptime.
  destruct (re_match format_regex s) as [found|]; simpl;
    [|intros H; inv H; reflexivity].
  destruct (negb _); simpl; [intros H; inv H; reflexivity|].
  destruct (set_fields _ _) as [f|e'] eqn:F; simpl.
  - unfold new_datetime.
    destruct (_check_date_fields _ _ _) as [[]|e'] eqn:C; simpl;
      [discriminate|].
    intros H; inv H. eapply _check_date_fields_raises; eassumption.
  - intros H; inv H. eapply set_fields_raises; eassumption.
Qed.

Lemma malformed_raises s : malformed s -> exists e, strptime s = Raise e.
Proof.
  intros M. destruct (strptime s) as [dt|e] eqn:E; [|eauto].
  apply strptime_Ok in E as (y & m & d & [D V] & _). exfalso.
  destruct M as [W | (y' & m' & d' & D' & NV)].
  - apply W. eauto.
  - destruct (denotes_functional _ _ _ _ _ _ _ D D') as (-> & -> & ->).
    contradiction.
Qed.

Lemma raises_malformed s e : strptime s = Raise e -> malformed s.
Proof.
  intros E. unfold strptime in E.
  destruct (_strptime s) as [[[y m] d]|e'] eqn:P; simpl in E.
  - right. exists y, m, d. split; [now apply _strptime_sound|].
    intros V. pose proof (_strptime_sound _ _ _ _ P) as D.
    unfold new_datetime in E.
    rewrite (proj2 (_check_date_fields_valid y m d)
               (conj V (denotes_year_bound _ _ _ _ D))) in E.
    discriminate.
  - left. intros (y & m & d & D). apply _strptime_complete in D.
    congruence.
Qed.

Lemma valid_datetime_date dt :
  valid_datetime dt -> valid (date_of dt) /\ year dt <= 9999.
Proof. intros [C _]. now apply _check_date_fields_valid in C. Qed.

Lemma toordinal_bounds dt :
  valid_datetime dt -> 1 <= toordinal dt <= 3652060.
Proof.
  intros H. apply valid_datetime_date in H as [V B].
  exact (ordinal_bounds (date_of dt) V B).
Qed.

(** Subtracting two datetimes never overflows. *)
Lemma sub_Ok a b :
  valid_datetime a -> valid_datetime b -> exists td, sub a b = Ok td.
Proof.
  intros Ha Hb.
  pose proof (toordinal_bounds _ Ha) as Oa.
  pose proof (toordinal_bounds _ Hb) as Ob.
  destruct Ha as (_ & ? & ? & ? & ?), Hb as (_ & ? & ? & ? & ?).
  unfold sub, new_timedelta. cbv zeta.
  match goal with |- context [Z.abs ?d >? _] => set (d' := d) end.
  assert (Z.abs d' <= 999999999) as L
    by (subst d'; Z.div_mod_to_equations; lia).
  destruct (Z.gtb_spec (Z.abs d') 999999999); [lia | eauto].
Qed.

(** At midnight on both sides the difference is that of the ordinals. *)
Lemma sub_calendar_dates a b td :
  is_calendar_date a -> is_calendar_date b ->
  sub a b = Ok td -> days td = toordinal a - toordinal b.
Proof.
  intros (A1 & A2 & A3 & A4) (B1 & B2 & B3 & B4).
  unfold sub, new_timedelta. cbv zeta.
  rewrite A1, A2, A3, A4, B1, B2, B3, B4.
  change (0 + 0 * 60 + 0 * 3600 - (0 + 0 * 60 + 0 * 3600) + (0 - 0) / 1000000)
    with 0.
  change (0 / 86400) with 0.
  destruct (_ >? _); intros H; inv H. simpl. lia.
Qed.

Lemma strptime_valid_datetime s dt :
  strptime s = Ok dt -> valid_datetime dt /\ is_calendar_date dt.
Proof.
  intros H. apply strptime_Ok in H as (y & m & d & [D V] & ->).
  unfold valid_datetime, is_calendar_date. simpl.
  rewrite (proj2 (_check_date_fields_valid y m d)
             (conj V (denotes_year_bound _ _ _ _ D))).
  repeat split; lia.
Qed.

(** The success branch of [create_features]. *)
Lemma create_features_parsed start_date s stage dt :
  valid_datetime start_date -> strptime s = Ok dt ->
  exists n,
    create_features start_date s stage
    = Ok (Some (mkDataFrame [stage] [tm_yday dt] [n]), None)
    /\ (is_calendar_date start_date ->
        n = toordinal dt - toordinal start_date).
Proof.
  intros Hs Hp. destruct (strptime_valid_datetime _ _ Hp) as [Vd Md].
  destruct (sub_Ok dt start_date Vd Hs) as [td Htd].
  exists (days td). unfold create_features. rewrite Hp. simpl.
  rewrite Htd. simpl. split; [reflexivity|].
  intros Ms. eapply sub_calendar_dates; eassumption.
Qed.

(** The error branch of [create_features]. *)
Lemma create_features_rejected start_date s stage e :
  strptime s = Raise e ->
  create_features start_date s stage = Ok (None, Some INVALID_DATE).
Proof.
  intros Hp. unfold create_features. rewrite Hp. simpl.
  now rewrite (strptime_raises _ _ Hp).
Qed.

Lemma truthy_nonempty s : s <> "" -> truthy (Some s) = true.
Proof. destruct s; [congruence | reflexivity]. Qed.

Lemma denotes_nonempty s y m d : denotes s y m d -> s <> "".
Proof. intros (a & b & c & e & ms & ds & -> & _). discriminate. Qed.

(** The handler on a request whose date does not parse. *)
Lemma predict_rejected start_date model_predict form date_str stage e :
  form_get form "date_input" = Some date_str ->
  form_get form "stage_input" = Some stage ->
  date_str <> "" -> stage <> "" ->
  strptime date_str = Raise e ->
  predict start_date model_predict form
  = ([CallCreateFeatures date_str stage],
     Ok (page ("Error: " ++ INVALID_DATE) (Some date_str) (Some stage))).
Proof.
  intros Hd Hs Nd Ns Hp. unfold predict. rewrite Hd, Hs.
  rewrite (truthy_nonempty _ Nd), (truthy_nonempty _ Ns). cbn [negb orb].
  rewrite (create_features_rejected start_date _ stage _ Hp).
  reflexivity.
Qed.

(** The calls of the handler on a request whose features were built. *)
Lemma predict_accepted start_date model_predict form date_str stage X :
  form_get form "date_input" = Some date_str ->
  form_get form "stage_input" = Some stage ->
  date_str <> "" -> stage <> "" ->
  create_features start_date date_str stage = Ok (Some X, None) ->
  fst (predict start_date model_predict form)
  = [CallCreateFeatures date_str stage; CallModelPredict (Some X)].
Proof.
  intros Hd Hs Nd Ns Hc. unfold predict. rewrite Hd, Hs.
  rewrite (truthy_nonempty _ Nd), (truthy_nonempty _ Ns). cbn [negb orb].
  rewrite Hc. unfold tbind, tcall, tret. cbn [truthy].
  destruct (model_predict (Some X)) as [labels|e]; [|reflexivity].
  destruct (first labels); reflexivity.
Qed.

(** The handler on a request with an empty field. *)
Lemma predict_missing start_date model_predict form :
  truthy (form_get form "date_input") = false
  \/ truthy (form_get form "stage_input") = false ->
  predict start_date model_predict form
  = ([], Ok (page "Error: Please provide both date and stage."
                  (form_get form "date_input")
                  (form_get form "stage_input"))).
Proof.
  intros H. unfold predict.
  destruct (form_get form "date_input") as [d|],
           (form_get form "stage_input") as [s|]; try reflexivity.
  destruct H as [H|H]; rewrite H; [reflexivity|].
  now rewrite orb_true_r.
Qed.

Lemma empty_field_falsy v : empty_field v -> truthy v = false.
Proof. intros [->| ->]; reflexivity. Qed.

Lemma denotes_unpadded a b c e m d :
  is_digit a = true -> is_digit b = true ->
  is_digit c = true -> is_digit e = true ->
  1 <= m <= 9 -> 1 <= d <= 9 ->
  denotes (year_text a b c e ++ "-" ++ unpadded m ++ "-" ++ unpadded d)
          (year_value a b c e) m d.
Proof.
  intros Ha Hb Hc He Hm Hd. exists a, b, c, e, (unpadded m), (unpadded d).
  repeat split; try assumption.
  - assert (m = 1 \/ m = 2 \/ m = 3 \/ m = 4 \/ m = 5 \/ m = 6
            \/ m = 7 \/ m = 8 \/ m = 9) as C by lia.
    repeat (destruct C as [C|C]; [subst m; apply has_text_In; reflexivity|]).
    subst m; apply has_text_In; reflexivity.
  - assert (d = 1 \/ d = 2 \/ d = 3 \/ d = 4 \/ d = 5 \/ d = 6
            \/ d = 7 \/ d = 8 \/ d = 9) as C by lia.
    repeat (destruct C as [C|C]; [subst d; apply has_text_In; reflexivity|]).
    subst d; apply has_text_In; reflexivity.
Qed.

Lemma valid_date_small y m d :
  1 <= y -> 1 <= m <= 9 -> 1 <= d <= 9 -> valid_date y m d.
Proof.
  intros Hy Hm Hd. repeat split; try lia.
  destruct (leap_year y); month_cases m; simpl; lia.
Qed.

Lemma reads_padded_form s y m d :
  reads_padded s y m d -> is_YYYY_MM_DD s = true.
Proof.
  intros (a & b & c & e & m1 & m2 & d1 & d2 & -> & Ha & Hb & Hc & He
          & Hm1 & Hm2 & Hd1 & Hd2 & _).
  unfold year_text. simpl.
  now rewrite Ha, Hb, Hc, He, Hm1, Hm2, Hd1, Hd2.
Qed.

(** A zero-padded text that the format takes reads there as it reads
    digit by digit. *)
Lemma reads_padded_denotes s y m d y' m' d' :
  reads_padded s y m d -> denotes s y' m' d' ->
  y = y' /\ m = m' /\ d = d'.
Proof.
  intros (a & b & c & e & m1 & m2 & d1 & d2 & -> & _ & _ & _ & _
          & Hm1 & Hm2 & Hd1 & Hd2 & -> & -> & ->).
  intros (a' & b' & c' & e' & ms & ds & E & _ & _ & _ & _ & -> & Hm & Hd).
  unfold year_text in E. simpl in E. inv E.
  unfold month_texts in Hm.
  in_cases Hm;
    match goal with H : _ = _ ++ _ |- _ => simpl in H; inv H end;
    try discriminate;
    unfold day_texts in Hd;
    in_cases Hd; try discriminate; auto.
Qed.

Lemma impossible_padded_raises s :
  impossible_padded_date s -> exists e, strptime s = Raise e.
Proof.
  intros (y & m & d & R & NV).
  destruct (strptime s) as [dt|e] eqn:E; [|eauto].
  apply strptime_Ok in E as (y' & m' & d' & [D V] & _). exfalso.
  destruct (reads_padded_denotes _ _ _ _ _ _ _ R D) as (-> & -> & ->).
  contradiction.
Qed.

Lemma denotes_dash s y m d : denotes s y m d -> String.get 4 s = Some "-"%char.
Proof. intros (a & b & c & e & ms & ds & -> & _). reflexivity. Qed.

Lemma denotes_length_bounds s y m d :
  denotes s y m d -> (8 <= String.length s <= 10)%nat.
Proof.
  intros (a & b & c & e & ms & ds & -> & _ & _ & _ & _ & _ & Hm & Hd).
  assert (1 <= String.length ms <= 2)%nat
    by (unfold month_texts in Hm; in_cases Hm; simpl; lia).
  assert (1 <= String.length ds <= 2)%nat
    by (unfold day_texts in Hd; in_cases Hd; simpl; lia).
  unfold year_text. simpl. rewrite !length_append. simpl. lia.
Qed.

Lemma wrong_shape_raises s : wrong_shape s -> exists e, strptime s = Raise e.
Proof.
  intros W. destruct (strptime s) as [dt|e] eqn:E; [|eauto].
  apply strptime_Ok in E as (y & m & d & [D _] & _). exfalso.
  pose proof (denotes_length_bounds _ _ _ _ D).
  pose proof (denotes_dash _ _ _ _ D).
  destruct W as [W|[W|W]]; [lia | lia | contradiction].
Qed.

Lemma unparsable_raises s : unparsable s -> exists e, strptime s = Raise e.
Proof.
  intros [H|[H|H]];
    [exact H | now apply impossible_padded_raises | now apply wrong_shape_raises].
Qed.

End AppFacts.

(** * The claims *)

Import Re Datetime Strptime Calendar DateText.
Import StrptimeFacts DatetimeFacts AppFacts.

(** Discharges the side conditions of a concrete instance. *)
Ltac concrete :=
  repeat split;
  try reflexivity; try lia; try discriminate;
  try (apply has_text_In; reflexivity).

(** C1. For every date string that parses as a valid calendar date and
    every stage string, in the enumerated set or not, [create_features]
    succeeds and the [DayOfYear] of its record is the 1-based ordinal day
    of the date within its calendar year. *)
Theorem create_features_day_of_year start_date date_str stage y m d :
  valid_datetime start_date ->
  valid_date_string date_str y m d ->
  exists days_since_start,
    create_features start_date date_str stage
    = Ok (Some {| Stage := [stage];
                  DayOfYear := [ordinal_day y m d];
                  DaysSinceStart := [days_since_start] |}, None).
Proof.
  intros Hs Hv.
  assert (strptime date_str = Ok (mkdatetime y m d 0 0 0 0)) as Hp
    by (apply strptime_Ok; eauto).
  destruct (create_features_parsed start_date date_str stage _ Hs Hp)
    as (n & E & _).
  exists n. rewrite E. unfold tm_yday. simpl.
  now rewrite (_days_before_month_ordinal_day y m d (proj2 Hv)).
Qed.

Lemma create_features_day_of_year_witness :
  valid_datetime scenario_start_date
  /\ valid_date_string "2024-02-29" 2024 2 29
  /\ exists days_since_start,
       create_features scenario_start_date "2024-02-29" "Flowering"
       = Ok (Some {| Stage := ["Flowering"];
                     DayOfYear := [ordinal_day 2024 2 29];
                     DaysSinceStart := [days_since_start] |}, None).
Proof.
  assert (valid_datetime scenario_start_date) as Hs by concrete.
  assert (valid_date_string "2024-02-29" 2024 2 29) as Hv.
  { split; [|concrete].
    exists "2"%char, "0"%char, "2"%char, "4"%char, "02", "29". concrete. }
  split; [exact Hs | split; [exact Hv|]].
  exact (create_features_day_of_year scenario_start_date "2024-02-29"
           "Flowering" 2024 2 29 Hs Hv).
Defined.

(** C2. For every valid date, [DaysSinceStart] is the signed whole-day
    difference between the date and the reference start date (a calendar
    date): negative when the date precedes it, zero when it equals it,
    positive when it is after it. *)
Theorem create_features_days_since_start start_date date_str stage y m d :
  valid_datetime start_date ->
  is_calendar_date start_date ->
  valid_date_string date_str y m d ->
  exists day_of_year n,
    create_features start_date date_str stage
    = Ok (Some {| Stage := [stage];
                  DayOfYear := [day_of_year];
                  DaysSinceStart := [n] |}, None)
    /\ (forall k, day_difference (date_of start_date) (mkdate y m d) k
                  <-> k = n)
    /\ (before (mkdate y m d) (date_of start_date) -> n < 0)
    /\ (mkdate y m d = date_of start_date -> n = 0)
    /\ (before (date_of start_date) (mkdate y m d) -> 0 < n).
Proof.
  intros Hs Hc Hv.
  assert (strptime date_str = Ok (mkdatetime y m d 0 0 0 0)) as Hp
    by (apply strptime_Ok; eauto).
  destruct (create_features_parsed start_date date_str stage _ Hs Hp)
    as (n & E & Hn).
  specialize (Hn Hc).
  destruct (valid_datetime_date _ Hs) as [Vs _].
  assert (valid (mkdate y m d)) as Vd by exact (proj2 Hv).
  change (toordinal (mkdatetime y m d 0 0 0 0)) with (ordinal (mkdate y m d))
    in Hn.
  change (toordinal start_date) with (ordinal (date_of start_date)) in Hn.
  exists (tm_yday (mkdatetime y m d 0 0 0 0)), n.
  split; [exact E|]. split; [|split; [|split]].
  - intros k. rewrite Hn. now apply day_difference_ordinal.
  - intros B. pose proof (ordinal_before _ _ Vd Vs B). lia.
  - intros Q. rewrite Q in Hn. lia.
  - intros B. pose proof (ordinal_before _ _ Vs Vd B). lia.
Qed.

Lemma create_features_days_since_start_witness :
  valid_datetime scenario_start_date
  /\ is_calendar_date scenario_start_date
  /\ valid_date_string "2023-12-31" 2023 12 31
  /\ exists day_of_year n,
       create_features scenario_start_date "2023-12-31" "Maturity & Harvest"
       = Ok (Some {| Stage := ["Maturity & Harvest"];
                     DayOfYear := [day_of_year];
                     DaysSinceStart := [n] |}, None)
       /\ (forall k, day_difference (date_of scenario_start_date)
                                    (mkdate 2023 12 31) k <-> k = n)
       /\ (before (mkdate 2023 12 31) (date_of scenario_start_date) -> n < 0)
       /\ (mkdate 2023 12 31 = date_of scenario_start_date -> n = 0)
       /\ (before (date_of scenario_start_date) (mkdate 2023 12 31) -> 0 < n).
Proof.
  assert (valid_datetime scenario_start_date) as Hs by concrete.
  assert (is_calendar_date scenario_start_date) as Hc by concrete.
  assert (valid_date_string "2023-12-31" 2023 12 31) as Hv.
  { split; [|concrete].
    exists "2"%char, "0"%char, "2"%char, "3"%char, "12", "31". concrete. }
  split; [exact Hs | split; [exact Hc | split; [exact Hv|]]].
  exact (create_features_days_since_start scenario_start_date "2023-12-31"
           "Maturity & Harvest" 2023 12 31 Hs Hc Hv).
Defined.

(** C3, as the specification states it, fails: "2024-3-5" is not in the
    form YYYY-MM-DD, a wrong format, and yet [create_features] returns a
    record for it and the [predict] handler calls the classifier. *)
Lemma wrong_format_accepted_counterexample :
  is_YYYY_MM_DD "2024-3-5" = false
  /\ create_features scenario_start_date "2024-3-5" "Seedling"
     = Ok (Some {| Stage := ["Seedling"];
                   DayOfYear := [65];
                   DaysSinceStart := [64] |}, None)
  /\ existsb is_classifier_call
             (fst (predict scenario_start_date (constant_model "Rust")
                           [("date_input", "2024-3-5");
                            ("stage_input", "Seedling")])) = true.
Proof. repeat split; vm_compute; reflexivity. Qed.

(** C3, amended. For every date string on which the parse with
    '%Y-%m-%d' fails, [create_features] returns the invalid-date error and
    no record, and the [predict] handler does not call the classifier on a
    request with that date. The parse fails on every impossible calendar
    date written in the form YYYY-MM-DD and on every string of a wrong
    shape (fewer than 8 or more than 10 characters, or no dash in fifth
    place); it does not fail on every string that departs from the
    zero-padded form. *)
Theorem unparsable_date_rejected start_date model_predict date_str stage :
  unparsable date_str ->
  create_features start_date date_str stage = Ok (None, Some INVALID_DATE)
  /\ forall form,
       form_get form "date_input" = Some date_str ->
       existsb is_classifier_call
               (fst (predict start_date model_predict form)) = false.
Proof.
  intros U. destruct (unparsable_raises _ U) as [e Hp]. split.
  - exact (create_features_rejected start_date _ stage _ Hp).
  - intros form Hd.
    destruct (truthy (form_get form "date_input")) eqn:Td,
             (truthy (form_get form "stage_input")) eqn:Ts;
      try (rewrite predict_missing by auto; reflexivity).
    destruct (form_get form "stage_input") as [s|] eqn:Hs; [|discriminate].
    rewrite Hd in Td.
    erewrite predict_rejected; eauto.
    + intros ->. discriminate.
    + intros ->. discriminate.
Qed.

Lemma unparsable_date_rejected_witness :
  unparsable "2023-02-29"
  /\ create_features scenario_start_date "2023-02-29" "Seedling"
     = Ok (None, Some INVALID_DATE)
  /\ forall form,
       form_get form "date_input" = Some "2023-02-29" ->
       existsb is_classifier_call
               (fst (predict scenario_start_date (constant_model "Rust") form))
       = false.
Proof.
  assert (unparsable "2023-02-29") as U.
  { right. left. exists 2023, 2, 29. split.
    - exists "2"%char, "0"%char, "2"%char, "3"%char,
             "0"%char, "2"%char, "2"%char, "9"%char. concrete.
    - intros (_ & _ & H). vm_compute in H. destruct H as [_ H]. now apply H. }
  split; [exact U|].
  exact (unparsable_date_rejected scenario_start_date (constant_model "Rust")
           "2023-02-29" "Seedling" U).
Defined.

(** C4. With the reference start date 2024-01-01, [create_features] on
    the date "2024-03-15" and the stage "Seedling" succeeds with the record
    Stage "Seedling", DayOfYear 75, DaysSinceStart 74. *)
Theorem scenario_seedling :
  create_features scenario_start_date "2024-03-15" "Seedling"
  = Ok (Some {| Stage := ["Seedling"];
                DayOfYear := [75];
                DaysSinceStart := [74] |}, None).
Proof. vm_compute. reflexivity. Qed.

(** C5. On every submission whose date field or stage field is empty, the
    [predict] handler answers the page with the missing-input message and
    makes no call: neither to [create_features] nor to the classifier. *)
Theorem predict_missing_input start_date model_predict form :
  empty_field (form_get form "date_input")
  \/ empty_field (form_get form "stage_input") ->
  predict start_date model_predict form
  = ([], Ok (page "Error: Please provide both date and stage."
                  (form_get form "date_input")
                  (form_get form "stage_input"))).
Proof.
  intros H. apply predict_missing.
  destruct H as [H|H]; [left | right]; now apply empty_field_falsy.
Qed.

Lemma predict_missing_input_witness :
  (empty_field (form_get [("date_input", "2024-03-15"); ("stage_input", "")]
                         "date_input")
   \/ empty_field (form_get [("date_input", "2024-03-15"); ("stage_input", "")]
                            "stage_input"))
  /\ predict scenario_start_date (constant_model "Rust")
             [("date_input", "2024-03-15"); ("stage_input", "")]
     = ([], Ok (page "Error: Please provide both date and stage."
                     (Some "2024-03-15") (Some ""))).
Proof.
  assert (empty_field (form_get [("date_input", "2024-03-15");
                                 ("stage_input", "")] "date_input")
          \/ empty_field (form_get [("date_input", "2024-03-15");
                                    ("stage_input", "")] "stage_input")) as H.
  { right. right. reflexivity. }
  split; [exact H|].
  exact (predict_missing_input scenario_start_date (constant_model "Rust")
           [("date_input", "2024-03-15"); ("stage_input", "")] H).
Defined.

(** C6. For every valid date and every stage string whatsoever, also one
    outside the enumerated stages, [create_features] does not reject the
    stage and puts it unchanged in the [Stage] column of the record that
    the handler hands to the classifier. *)
Theorem create_features_passes_stage
    start_date model_predict date_str stage y m d :
  valid_datetime start_date ->
  valid_date_string date_str y m d ->
  exists day_of_year days_since_start,
    let X := {| Stage := [stage];
                DayOfYear := [day_of_year];
                DaysSinceStart := [days_since_start] |} in
    create_features start_date date_str stage = Ok (Some X, None)
    /\ forall form,
         form_get form "date_input" = Some date_str ->
         form_get form "stage_input" = Some stage ->
         stage <> "" ->
         fst (predict start_date model_predict form)
         = [CallCreateFeatures date_str stage; CallModelPredict (Some X)].
Proof.
  intros Hs Hv.
  assert (strptime date_str = Ok (mkdatetime y m d 0 0 0 0)) as Hp
    by (apply strptime_Ok; eauto).
  destruct (create_features_parsed start_date date_str stage _ Hs Hp)
    as (n & E & _).
  exists (tm_yday (mkdatetime y m d 0 0 0 0)), n. cbv zeta.
  split; [exact E|]. intros form Hd Hst Ns.
  eapply predict_accepted; eauto.
  destruct Hv as [D _]. exact (denotes_nonempty _ _ _ _ D).
Qed.

Lemma create_features_passes_stage_witness :
  valid_datetime scenario_start_date
  /\ valid_date_string "2024-7-4" 2024 7 4
  /\ exists day_of_year days_since_start,
       let X := {| Stage := ["Not a stage"];
                   DayOfYear := [day_of_year];
                   DaysSinceStart := [days_since_start] |} in
       create_features scenario_start_date "2024-7-4" "Not a stage"
       = Ok (Some X, None)
       /\ forall form,
            form_get form "date_input" = Some "2024-7-4" ->
            form_get form "stage_input" = Some "Not a stage" ->
            "Not a stage" <> "" ->
            fst (predict scenario_start_date (constant_model "Rust") form)
            = [CallCreateFeatures "2024-7-4" "Not a stage";
               CallModelPredict (Some X)].
Proof.
  assert (valid_datetime scenario_start_date) as Hs by concrete.
  assert (valid_date_string "2024-7-4" 2024 7 4) as Hv.
  { split; [|concrete].
    exists "2"%char, "0"%char, "2"%char, "4"%char, "7", "4". concrete. }
  split; [exact Hs | split; [exact Hv|]].
  exact (create_features_passes_stage scenario_start_date
           (constant_model "Rust") "2024-7-4" "Not a stage" 2024 7 4 Hs Hv).
Defined.

(** C8, as the specification states it, fails: on the submission of the
    date "15-03-2024", which does not parse, the message shown to the user
    does not contain the submitted date. *)
Lemma message_echo_counterexample :
  (exists e, strptime "15-03-2024" = Raise e)
  /\ exists r text,
       snd (predict scenario_start_date (constant_model "Rust")
                    [("date_input", "15-03-2024");
                     ("stage_input", "Seedling")]) = Ok r
       /\ message r = Some (VStr text)
       /\ contains "15-03-2024" text = false.
Proof.
  split; [eexists; reflexivity|].
  do 2 eexists. split; [reflexivity|]. split; reflexivity.
Qed.

(** C8, amended. On every submission whose date string fails to parse
    (both fields being filled), the [predict] handler renders one fixed
    message, "Error: Invalid date format. Please use YYYY-MM-DD.", whatever
    the input; the submitted date is handed back to the template as
    [date_val], next to the message and not in it. *)
Theorem predict_invalid_date_page
    start_date model_predict form date_str stage e :
  form_get form "date_input" = Some date_str ->
  form_get form "stage_input" = Some stage ->
  date_str <> "" -> stage <> "" ->
  strptime date_str = Raise e ->
  exists r,
    predict start_date model_predict form
    = ([CallCreateFeatures date_str stage], Ok r)
    /\ message r
       = Some (VStr "Error: Invalid date format. Please use YYYY-MM-DD.")
    /\ lookup "date_val" (context r) = Some (VStr date_str)
    /\ lookup "stage_val" (context r) = Some (VStr stage).
Proof.
  intros Hd Hs Nd Ns Hp. eexists. split.
  - eapply predict_rejected; eauto.
  - repeat split; reflexivity.
Qed.

Lemma predict_invalid_date_page_witness :
  exists r,
    predict scenario_start_date (constant_model "Rust")
            [("date_input", "15-03-2024"); ("stage_input", "Seedling")]
    = ([CallCreateFeatures "15-03-2024" "Seedling"], Ok r)
    /\ message r
       = Some (VStr "Error: Invalid date format. Please use YYYY-MM-DD.")
    /\ lookup "date_val" (context r) = Some (VStr "15-03-2024")
    /\ lookup "stage_val" (context r) = Some (VStr "Seedling").
Proof.
  refine (predict_invalid_date_page scenario_start_date (constant_model "Rust")
            [("date_input", "15-03-2024"); ("stage_input", "Seedling")]
            "15-03-2024" "Seedling"
            (ValueError "time data does not match format")
            eq_refl eq_refl _ _ eq_refl); discriminate.
Defined.

(** C9. On every pair of strings [create_features] returns, and returns
    one of two things: a record with its three columns filled and no
    error, or no record and a non-empty error message. No exception
    escapes: the date parse raises nothing but [ValueError], which is
    caught, and nothing after it raises. *)
Theorem create_features_total start_date date_str stage :
  valid_datetime start_date ->
  ((exists day_of_year days_since_start,
      create_features start_date date_str stage
      = Ok (Some {| Stage := [stage];
                    DayOfYear := [day_of_year];
                    DaysSinceStart := [days_since_start] |}, None))
   \/ (exists msg,
         create_features start_date date_str stage = Ok (None, Some msg)
         /\ msg <> ""))
  /\ (forall e, strptime date_str = Raise e -> is_ValueError e = true)
  /\ (forall e, create_features start_date date_str stage <> Raise e).
Proof.
  intros Hs.
  assert ((exists day_of_year days_since_start,
             create_features start_date date_str stage
             = Ok (Some {| Stage := [stage];
                           DayOfYear := [day_of_year];
                           DaysSinceStart := [days_since_start] |}, None))
          \/ (exists msg,
                create_features start_date date_str stage
                = Ok (None, Some msg) /\ msg <> "")) as T.
  { destruct (strptime date_str) as [dt|e] eqn:Hp.
    - left.
      destruct (create_features_parsed start_date date_str stage _ Hs Hp)
        as (n & E & _). eauto.
    - right. exists INVALID_DATE. split; [|discriminate].
      exact (create_features_rejected start_date _ stage _ Hp). }
  split; [exact T|]. split; [apply strptime_raises|].
  intros e H. destruct T as [(a & b & E) | (msg & E & _)]; congruence.
Qed.

Lemma create_features_total_witness :
  valid_datetime scenario_start_date
  /\ ((exists day_of_year days_since_start,
         create_features scenario_start_date "yesterday" "Seedling"
         = Ok (Some {| Stage := ["Seedling"];
                       DayOfYear := [day_of_year];
                       DaysSinceStart := [days_since_start] |}, None))
      \/ (exists msg,
            create_features scenario_start_date "yesterday" "Seedling"
            = Ok (None, Some msg) /\ msg <> ""))
  /\ (forall e, strptime "yesterday" = Raise e -> is_ValueError e = true)
  /\ (forall e, create_features scenario_start_date "yesterday" "Seedling"
                <> Raise e).
Proof.
  assert (valid_datetime scenario_start_date) as Hs by concrete.
  split; [exact Hs|].
  exact (create_features_total scenario_start_date "yesterday" "Seedling" Hs).
Defined.

(** C10. Some date strings that are not in the zero-padded form
    YYYY-MM-DD are accepted, "2024-3-5" for one: the error branch is taken
    exactly when the parse with the format '%Y-%m-%d' fails, and that parse
    takes month and day numbers without padding. *)
Theorem strptime_accepts_unpadded start_date :
  valid_datetime start_date ->
  (is_YYYY_MM_DD "2024-3-5" = false
   /\ forall stage, exists X,
        create_features start_date "2024-3-5" stage = Ok (Some X, None))
  /\ (forall date_str stage,
        create_features start_date date_str stage = Ok (None, Some INVALID_DATE)
        <-> exists e, strptime date_str = Raise e)
  /\ (forall a b c e m d,
        is_digit a = true -> is_digit b = true ->
        is_digit c = true -> is_digit e = true ->
        1 <= year_value a b c e -> 1 <= m <= 9 -> 1 <= d <= 9 ->
        let s := year_text a b c e ++ "-" ++ unpadded m ++ "-" ++ unpadded d in
        is_YYYY_MM_DD s = false
        /\ strptime s = Ok (mkdatetime (year_value a b c e) m d 0 0 0 0)).
Proof.
  intros Hs. split; [split; [reflexivity|] | split].
  - intros stage.
    assert (strptime "2024-3-5" = Ok (mkdatetime 2024 3 5 0 0 0 0)) as Hp
      by reflexivity.
    destruct (create_features_parsed start_date _ stage _ Hs Hp)
      as (n & E & _). eauto.
  - intros date_str stage. split.
    + intros E. destruct (strptime date_str) as [dt|e] eqn:Hp; [|eauto].
      destruct (create_features_parsed start_date date_str stage _ Hs Hp)
        as (n & E' & _). congruence.
    + intros [e Hp]. exact (create_features_rejected start_date _ stage _ Hp).
  - intros a b c e m d Ha Hb Hc He Hy Hm Hd. cbv zeta. split; [reflexivity|].
    apply strptime_Ok. exists (year_value a b c e), m, d.
    split; [split|reflexivity].
    + now apply denotes_unpadded.
    + now apply valid_date_small.
Qed.

Lemma strptime_accepts_unpadded_witness :
  valid_datetime scenario_start_date
  /\ (is_YYYY_MM_DD "2024-3-5" = false
      /\ forall stage, exists X,
           create_features scenario_start_date "2024-3-5" stage
           = Ok (Some X, None))
  /\ (forall date_str stage,
        create_features scenario_start_date date_str stage
        = Ok (None, Some INVALID_DATE)
        <-> exists e, strptime date_str = Raise e)
  /\ (forall a b c e m d,
        is_digit a = true -> is_digit b = true ->
        is_digit c = true -> is_digit e = true ->
        1 <= year_value a b c e -> 1 <= m <= 9 -> 1 <= d <= 9 ->
        let s := year_text a b c e ++ "-" ++ unpadded m ++ "-" ++ unpadded d in
        is_YYYY_MM_DD s = false
        /\ strptime s = Ok (mkdatetime (year_value a b c e) m d 0 0 0 0)).
Proof.
  assert (valid_datetime scenario_start_date) as Hs by concrete.
  split; [exact Hs|].
  exact (strptime_accepts_unpadded scenario_start_date Hs).
Defined.

(** * Further properties of the code *)

Module MoreFacts.

Import Re ReFacts Datetime Strptime Calendar DateText.
Import StrptimeFacts DatetimeFacts AppFacts.

Lemma sub_days a b td :
  is_calendar_date a -> sub a b = Ok td ->
  days td = toordinal a - toordinal b + time_carry b.
Proof.
  intros (A1 & A2 & A3 & A4). unfold sub, new_timedelta, time_carry.
  cbv zeta. rewrite A1, A2, A3, A4.
  replace (0 + 0 * 60 + 0 * 3600 - (second b + minute b * 60 + hour b * 3600))
    with (- (second b + minute b * 60 + hour b * 3600)) by lia.
  replace (0 - microsecond b) with (- microsecond b) by lia.
  destruct (_ >? _); intros H; inv H. reflexivity.
Qed.

Lemma time_carry_midnight dt : is_calendar_date dt -> time_carry dt = 0.
Proof.
  intros (A1 & A2 & A3 & A4). unfold time_carry.
  rewrite A1, A2, A3, A4. reflexivity.
Qed.

Lemma time_carry_later dt :
  valid_datetime dt ->
  0 < hour dt + minute dt + second dt + microsecond dt ->
  time_carry dt = -1.
Proof.
  intros (_ & ? & ? & ? & ?) Hpos. unfold time_carry.
  Z.div_mod_to_equations. lia.
Qed.

(** The record of the success branch, with its numbers written out. *)
Lemma create_features_record start_date s stage dt :
  valid_datetime start_date -> strptime s = Ok dt ->
  create_features start_date s stage
  = Ok (Some (mkDataFrame [stage] [tm_yday dt]
                [toordinal dt - toordinal start_date + time_carry start_date]),
        None).
Proof.
  intros Hs Hp. destruct (strptime_valid_datetime _ _ Hp) as [Vd Md].
  destruct (sub_Ok dt start_date Vd Hs) as [td Htd].
  unfold create_features. rewrite Hp. simpl. rewrite Htd. simpl.
  now rewrite (sub_days _ _ _ Md Htd).
Qed.

(** A record comes from the success branch only. *)
Lemma create_features_inv start_date s stage X err :
  create_features start_date s stage = Ok (Some X, err) ->
  exists dt td,
    strptime s = Ok dt /\ sub dt start_date = Ok td
    /\ X = mkDataFrame [stage] [tm_yday dt] [days td] /\ err = None.
Proof.
  unfold create_features.
  destruct (strptime s) as [dt|e] eqn:Hp; simpl.
  - destruct (sub dt start_date) as [td|e] eqn:Hd; simpl; [|discriminate].
    intros H. inv H. eauto 6.
  - destruct (is_ValueError e); discriminate.
Qed.

Lemma month_text_length ms m :
  In (ms, m) month_texts -> (1 <= String.length ms <= 2)%nat.
Proof. intros H. unfold month_texts in H. in_cases H; simpl; lia. Qed.

Lemma day_text_length ds d :
  In (ds, d) day_texts -> (1 <= String.length ds <= 2)%nat.
Proof. intros H. unfold day_texts in H. in_cases H; simpl; lia. Qed.

Lemma denotes_length s y m d :
  denotes s y m d -> (8 <= String.length s <= 10)%nat.
Proof.
  intros (a & b & c & e & ms & ds & -> & _ & _ & _ & _ & _ & Hm & Hd).
  apply month_text_length in Hm. apply day_text_length in Hd.
  unfold year_text. simpl. rewrite !length_append. simpl. lia.
Qed.

Lemma ordinal_day_first y : ordinal_day y 1 1 = 1.
Proof. unfold ordinal_day. destruct (leap_year y); reflexivity. Qed.

Lemma tm_yday_ordinal_day y m d :
  valid_date y m d -> tm_yday (mkdatetime y m d 0 0 0 0) = ordinal_day y m d.
Proof. intros V. unfold tm_yday. simpl. now apply _days_before_month_ordinal_day. Qed.

Lemma strptime_valid s y m d :
  valid_date_string s y m d -> strptime s = Ok (mkdatetime y m d 0 0 0 0).
Proof. intros H. apply strptime_Ok. eauto. Qed.

Lemma create_features_nonempty start_date date_str stage X err :
  create_features start_date date_str stage = Ok (Some X, err) ->
  date_str <> "".
Proof.
  intros H ->. apply create_features_inv in H as (dt & td & Hp & _).
  discriminate Hp.
Qed.

(** Every page of [predict] is [page] on some text and the two fields as
    submitted. *)
Lemma predict_page start_date model_predict form r :
  snd (predict start_date model_predict form) = Ok r ->
  exists text,
    r = page text (form_get form "date_input") (form_get form "stage_input").
Proof.
  unfold predict.
  destruct (form_get form "date_input") as [date_str|],
           (form_get form "stage_input") as [stage|];
    try (simpl; intros H; inv H; eauto; fail).
  destruct (negb (truthy (Some date_str)) || negb (truthy (Some stage)));
    [simpl; intros H; inv H; eauto|].
  unfold tbind, tcall, tret.
  destruct (create_features start_date date_str stage)
    as [[X_new error_message]|e]; [|discriminate].
  destruct (truthy error_message); [simpl; intros H; inv H; eauto|].
  destruct (model_predict X_new) as [labels|e]; [|discriminate].
  destruct (first labels) as [prediction|e]; [|discriminate].
  simpl. intros H; inv H; eauto.
Qed.

End MoreFacts.

Import MoreFacts.

(** X1. Whenever [create_features] returns a record, the parse of the
    date string had succeeded, on a string of 8 to 10 characters with a
    dash in fifth place; no error comes with the record, each column holds
    one row, the stage is the one given, and [DayOfYear] is the ordinal
    day of the parsed date, between 1 and 365, or 366 in a leap year. *)
Theorem create_features_record_shape start_date date_str stage X err :
  create_features start_date date_str stage = Ok (Some X, err) ->
  exists dt n,
    strptime date_str = Ok dt
    /\ valid (date_of dt)
    /\ err = None
    /\ X = {| Stage := [stage];
              DayOfYear := [ordinal_day (year dt) (month dt) (day dt)];
              DaysSinceStart := [n] |}
    /\ 1 <= ordinal_day (year dt) (month dt) (day dt)
         <= 365 + (if leap_year (year dt) then 1 else 0)
    /\ (8 <= String.length date_str <= 10)%nat
    /\ String.get 4 date_str = Some "-"%char.
Proof.
  intros H. apply create_features_inv in H as (dt & td & Hp & _ & -> & ->).
  exists dt, (days td). split; [exact Hp|].
  apply strptime_Ok in Hp as (y & m & d & Hv & ->). simpl.
  split; [exact (proj2 Hv)|]. split; [reflexivity|]. split; [|split; [|split]].
  - now rewrite (tm_yday_ordinal_day y m d (proj2 Hv)).
  - exact (ordinal_day_bounds y m d (proj2 Hv)).
  - exact (denotes_length _ _ _ _ (proj1 Hv)).
  - exact (denotes_dash _ _ _ _ (proj1 Hv)).
Qed.

Lemma create_features_record_shape_witness :
  exists dt n,
    strptime "2024-12-31" = Ok dt
    /\ valid (date_of dt)
    /\ (@None string) = None
    /\ {| Stage := ["Maturity & Harvest"];
          DayOfYear := [366];
          DaysSinceStart := [365] |}
       = {| Stage := ["Maturity & Harvest"];
            DayOfYear := [ordinal_day (year dt) (month dt) (day dt)];
            DaysSinceStart := [n] |}
    /\ 1 <= ordinal_day (year dt) (month dt) (day dt)
         <= 365 + (if leap_year (year dt) then 1 else 0)
    /\ (8 <= String.length "2024-12-31" <= 10)%nat
    /\ String.get 4 "2024-12-31" = Some "-"%char.
Proof.
  exact (create_features_record_shape scenario_start_date "2024-12-31"
           "Maturity & Harvest"
           {| Stage := ["Maturity & Harvest"];
              DayOfYear := [366];
              DaysSinceStart := [365] |} None eq_refl).
Defined.

(** X2. The result depends on the date string only through the date it
    reads as: two strings for the same year, month and day, padded or not,
    give the same result. *)
Theorem create_features_same_date start_date s1 s2 stage y m d :
  valid_date_string s1 y m d ->
  valid_date_string s2 y m d ->
  create_features start_date s1 stage = create_features start_date s2 stage.
Proof.
  intros H1 H2. unfold create_features.
  now rewrite (strptime_valid _ _ _ _ H1), (strptime_valid _ _ _ _ H2).
Qed.

Lemma create_features_same_date_witness :
  valid_date_string "2024-03-05" 2024 3 5
  /\ valid_date_string "2024-3-5" 2024 3 5
  /\ create_features scenario_start_date "2024-03-05" "Seedling"
     = create_features scenario_start_date "2024-3-5" "Seedling".
Proof.
  assert (valid_date_string "2024-03-05" 2024 3 5) as H1.
  { split; [|concrete].
    exists "2"%char, "0"%char, "2"%char, "4"%char, "03", "05". concrete. }
  assert (valid_date_string "2024-3-5" 2024 3 5) as H2.
  { split; [|concrete].
    exists "2"%char, "0"%char, "2"%char, "4"%char, "3", "5". concrete. }
  split; [exact H1 | split; [exact H2|]].
  exact (create_features_same_date scenario_start_date "2024-03-05" "2024-3-5"
           "Seedling" 2024 3 5 H1 H2).
Defined.

(** X3. From a date to the day after it, [DaysSinceStart] grows by one,
    whatever the start date, and [DayOfYear] grows by one within a year and
    returns to 1 on the first day of the next year. *)
Theorem create_features_next_day
    start_date s1 s2 stage y1 m1 d1 y2 m2 d2 :
  valid_datetime start_date ->
  valid_date_string s1 y1 m1 d1 ->
  valid_date_string s2 y2 m2 d2 ->
  mkdate y2 m2 d2 = next_day (mkdate y1 m1 d1) ->
  exists doy1 n1 doy2 n2,
    create_features start_date s1 stage
    = Ok (Some {| Stage := [stage]; DayOfYear := [doy1];
                  DaysSinceStart := [n1] |}, None)
    /\ create_features start_date s2 stage
       = Ok (Some {| Stage := [stage]; DayOfYear := [doy2];
                     DaysSinceStart := [n2] |}, None)
    /\ n2 = n1 + 1
    /\ doy2 = (if y2 =? y1 then doy1 + 1 else 1).
Proof.
  intros Hs H1 H2 Hn.
  pose proof (create_features_record start_date s1 stage _ Hs
                (strptime_valid _ _ _ _ H1)) as E1.
  pose proof (create_features_record start_date s2 stage _ Hs
                (strptime_valid _ _ _ _ H2)) as E2.
  do 4 eexists. split; [exact E1|]. split; [exact E2|].
  assert (valid (mkdate y1 m1 d1)) as V1 by exact (proj2 H1).
  assert (valid (mkdate y2 m2 d2)) as V2 by exact (proj2 H2).
  pose proof (ordinal_next_day _ V1) as O. rewrite <- Hn in O.
  change (toordinal (mkdatetime y1 m1 d1 0 0 0 0)) with (ordinal (mkdate y1 m1 d1)).
  change (toordinal (mkdatetime y2 m2 d2 0 0 0 0)) with (ordinal (mkdate y2 m2 d2)).
  split; [lia|].
  rewrite (tm_yday_ordinal_day _ _ _ (proj2 H1)),
          (tm_yday_ordinal_day _ _ _ (proj2 H2)).
  rewrite (ordinal_split _ V1), (ordinal_split _ V2) in O. simpl in O.
  destruct (Z.eqb_spec y2 y1) as [->|Ny]; [lia|].
  unfold next_day in Hn.
  destruct (d1 <? month_length (leap_year y1) m1); [inv Hn; congruence|].
  destruct (m1 <? 12); inv Hn; [congruence|].
  apply ordinal_day_first.
Qed.

Lemma create_features_next_day_witness :
  valid_datetime scenario_start_date
  /\ valid_date_string "2023-12-31" 2023 12 31
  /\ valid_date_string "2024-01-01" 2024 1 1
  /\ mkdate 2024 1 1 = next_day (mkdate 2023 12 31)
  /\ exists doy1 n1 doy2 n2,
       create_features scenario_start_date "2023-12-31" "Seedling"
       = Ok (Some {| Stage := ["Seedling"]; DayOfYear := [doy1];
                     DaysSinceStart := [n1] |}, None)
       /\ create_features scenario_start_date "2024-01-01" "Seedling"
          = Ok (Some {| Stage := ["Seedling"]; DayOfYear := [doy2];
                        DaysSinceStart := [n2] |}, None)
       /\ n2 = n1 + 1
       /\ doy2 = (if 2024 =? 2023 then doy1 + 1 else 1).
Proof.
  assert (valid_datetime scenario_start_date) as Hs by concrete.
  assert (valid_date_string "2023-12-31" 2023 12 31) as H1.
  { split; [|concrete].
    exists "2"%char, "0"%char, "2"%char, "3"%char, "12", "31". concrete. }
  assert (valid_date_string "2024-01-01" 2024 1 1) as H2.
  { split; [|concrete].
    exists "2"%char, "0"%char, "2"%char, "4"%char, "01", "01". concrete. }
  split; [exact Hs | split; [exact H1 | split; [exact H2 | split;
    [reflexivity|]]]].
  exact (create_features_next_day scenario_start_date "2023-12-31" "2024-01-01"
           "Seedling" 2023 12 31 2024 1 1 Hs H1 H2 eq_refl).
Defined.

(** X4. The 29th of February is accepted in leap years only: for every
    four-digit year from 1 on, [create_features] on that year's "-02-29"
    returns a record when the year is a multiple of 4 that is not a
    century, or a multiple of 400, and the invalid-date error otherwise. *)
Theorem create_features_feb_29 start_date a b c e stage :
  valid_datetime start_date ->
  is_digit a = true -> is_digit b = true ->
  is_digit c = true -> is_digit e = true ->
  1 <= year_value a b c e ->
  if leap_year (year_value a b c e)
  then exists X,
         create_features start_date (year_text a b c e ++ "-02-29") stage
         = Ok (Some X, None)
  else create_features start_date (year_text a b c e ++ "-02-29") stage
       = Ok (None, Some INVALID_DATE).
Proof.
  intros Hs Ha Hb Hc He Hy.
  assert (denotes (year_text a b c e ++ "-02-29") (year_value a b c e) 2 29)
    as D.
  { exists a, b, c, e, "02", "29". repeat split; try assumption;
      apply has_text_In; reflexivity. }
  destruct (leap_year (year_value a b c e)) eqn:L.
  - assert (valid_date (year_value a b c e) 2 29) as V
      by (unfold valid_date; rewrite L; simpl; lia).
    eexists. exact (create_features_record start_date _ stage _ Hs
                      (strptime_valid _ _ _ _ (conj D V))).
  - assert (malformed (year_text a b c e ++ "-02-29")) as M.
    { right. exists (year_value a b c e), 2, 29. split; [exact D|].
      unfold valid_date. rewrite L. simpl. lia. }
    destruct (malformed_raises _ M) as [ex Hp].
    exact (create_features_rejected start_date _ stage _ Hp).
Qed.

Lemma create_features_feb_29_witness :
  valid_datetime scenario_start_date
  /\ 1 <= year_value "1" "9" "0" "0"
  /\ if leap_year (year_value "1" "9" "0" "0")
     then exists X,
            create_features scenario_start_date
                            (year_text "1" "9" "0" "0" ++ "-02-29") "Seedling"
            = Ok (Some X, None)
     else create_features scenario_start_date
                          (year_text "1" "9" "0" "0" ++ "-02-29") "Seedling"
          = Ok (None, Some INVALID_DATE).
Proof.
  assert (valid_datetime scenario_start_date) as Hs by concrete.
  assert (1 <= year_value "1" "9" "0" "0") as Hy by (vm_compute; discriminate).
  split; [exact Hs | split; [exact Hy|]].
  exact (create_features_feb_29 scenario_start_date "1" "9" "0" "0" "Seedling"
           Hs eq_refl eq_refl eq_refl eq_refl Hy).
Defined.

(** X5. [DaysSinceStart] is the [days] field of a difference of
    datetimes, which rounds down: when the start date carries a time of
    day after midnight, every result is one less than the day difference
    of the two dates, and a date equal to the start date gives -1. *)
Theorem create_features_start_after_midnight
    start_date date_str stage y m d :
  valid_datetime start_date ->
  0 < hour start_date + minute start_date + second start_date
      + microsecond start_date ->
  valid_date_string date_str y m d ->
  exists day_of_year n,
    create_features start_date date_str stage
    = Ok (Some {| Stage := [stage]; DayOfYear := [day_of_year];
                  DaysSinceStart := [n] |}, None)
    /\ day_difference (date_of start_date) (mkdate y m d) (n + 1)
    /\ (mkdate y m d = date_of start_date -> n = -1).
Proof.
  intros Hs Ht Hv.
  pose proof (create_features_record start_date date_str stage _ Hs
                (strptime_valid _ _ _ _ Hv)) as E.
  rewrite (time_carry_later _ Hs Ht) in E.
  do 2 eexists. split; [exact E|].
  destruct (valid_datetime_date _ Hs) as [Vs _].
  assert (valid (mkdate y m d)) as Vd by exact (proj2 Hv).
  change (toordinal (mkdatetime y m d 0 0 0 0)) with (ordinal (mkdate y m d)).
  change (toordinal start_date) with (ordinal (date_of start_date)).
  split.
  - apply day_difference_ordinal; [exact Vs | exact Vd | lia].
  - intros ->. lia.
Qed.

Lemma create_features_start_after_midnight_witness :
  valid_datetime (mkdatetime 2024 1 1 8 30 0 0)
  /\ 0 < hour (mkdatetime 2024 1 1 8 30 0 0)
         + minute (mkdatetime 2024 1 1 8 30 0 0)
         + second (mkdatetime 2024 1 1 8 30 0 0)
         + microsecond (mkdatetime 2024 1 1 8 30 0 0)
  /\ valid_date_string "2024-01-01" 2024 1 1
  /\ exists day_of_year n,
       create_features (mkdatetime 2024 1 1 8 30 0 0) "2024-01-01" "Germination"
       = Ok (Some {| Stage := ["Germination"]; DayOfYear := [day_of_year];
                     DaysSinceStart := [n] |}, None)
       /\ day_difference (date_of (mkdatetime 2024 1 1 8 30 0 0))
                         (mkdate 2024 1 1) (n + 1)
       /\ (mkdate 2024 1 1 = date_of (mkdatetime 2024 1 1 8 30 0 0) -> n = -1).
Proof.
  assert (valid_datetime (mkdatetime 2024 1 1 8 30 0 0)) as Hs by concrete.
  assert (0 < hour (mkdatetime 2024 1 1 8 30 0 0)
              + minute (mkdatetime 2024 1 1 8 30 0 0)
              + second (mkdatetime 2024 1 1 8 30 0 0)
              + microsecond (mkdatetime 2024 1 1 8 30 0 0)) as Ht
    by (simpl; lia).
  assert (valid_date_string "2024-01-01" 2024 1 1) as Hv.
  { split; [|concrete].
    exists "2"%char, "0"%char, "2"%char, "4"%char, "01", "01". concrete. }
  split; [exact Hs | split; [exact Ht | split; [exact Hv|]]].
  exact (create_features_start_after_midnight (mkdatetime 2024 1 1 8 30 0 0)
           "2024-01-01" "Germination" 2024 1 1 Hs Ht Hv).
Defined.

(** X6. When the start date is the first of January, at midnight, of the
    year of the date, [DaysSinceStart] is [DayOfYear] minus one. *)
Theorem create_features_from_new_year start_date date_str stage y m d :
  valid_datetime start_date ->
  is_calendar_date start_date ->
  date_of start_date = mkdate y 1 1 ->
  valid_date_string date_str y m d ->
  create_features start_date date_str stage
  = Ok (Some {| Stage := [stage];
                DayOfYear := [ordinal_day y m d];
                DaysSinceStart := [ordinal_day y m d - 1] |}, None).
Proof.
  intros Hs Hc Hj Hv.
  rewrite (create_features_record start_date date_str stage _ Hs
             (strptime_valid _ _ _ _ Hv)).
  rewrite (time_carry_midnight _ Hc).
  rewrite (tm_yday_ordinal_day _ _ _ (proj2 Hv)).
  destruct (valid_datetime_date _ Hs) as [Vs _].
  assert (valid (mkdate y m d)) as Vd by exact (proj2 Hv).
  change (toordinal (mkdatetime y m d 0 0 0 0)) with (ordinal (mkdate y m d)).
  change (toordinal start_date) with (ordinal (date_of start_date)).
  assert (ordinal (mkdate y m d) - ordinal (date_of start_date) + 0
          = ordinal_day y m d - 1) as ->; [|reflexivity].
  rewrite Hj in *.
  rewrite (ordinal_split _ Vd), (ordinal_split _ Vs). simpl.
  rewrite ordinal_day_first. lia.
Qed.

Lemma create_features_from_new_year_witness :
  valid_datetime scenario_start_date
  /\ is_calendar_date scenario_start_date
  /\ date_of scenario_start_date = mkdate 2024 1 1
  /\ valid_date_string "2024-03-15" 2024 3 15
  /\ create_features scenario_start_date "2024-03-15" "Seedling"
     = Ok (Some {| Stage := ["Seedling"];
                   DayOfYear := [ordinal_day 2024 3 15];
                   DaysSinceStart := [ordinal_day 2024 3 15 - 1] |}, None).
Proof.
  assert (valid_datetime scenario_start_date) as Hs by concrete.
  assert (is_calendar_date scenario_start_date) as Hc by concrete.
  assert (valid_date_string "2024-03-15" 2024 3 15) as Hv.
  { split; [|concrete].
    exists "2"%char, "0"%char, "2"%char, "4"%char, "03", "15". concrete. }
  split; [exact Hs | split; [exact Hc | split; [reflexivity |
    split; [exact Hv|]]]].
  exact (create_features_from_new_year scenario_start_date "2024-03-15"
           "Seedling" 2024 3 15 Hs Hc eq_refl Hv).
Defined.

(** X7. Year zero is rejected: every date string that begins with "0000"
    gets the invalid-date error, whatever follows. *)
Theorem create_features_year_zero start_date rest stage :
  create_features start_date ("0000" ++ rest) stage
  = Ok (None, Some INVALID_DATE).
Proof.
  destruct (strptime ("0000" ++ rest)) as [dt|ex] eqn:Hp.
  - exfalso. apply strptime_Ok in Hp as (y & m & d & [D V] & _).
    destruct D as (a & b & c & e & ms & ds & E & _ & _ & _ & _ & -> & _).
    unfold year_text in E. simpl in E. inv E.
    destruct V as [V _]. vm_compute in V. now apply V.
  - exact (create_features_rejected start_date _ stage _ Hp).
Qed.

(** X8. On a request whose features were built and whose classifier run
    returned labels, [predict] makes its two calls in order and renders the
    sentence with the stage, the date as submitted and the first label; the
    other labels are ignored. *)
Theorem predict_success_page
    start_date model_predict form date_str stage X label more :
  form_get form "date_input" = Some date_str ->
  form_get form "stage_input" = Some stage ->
  stage <> "" ->
  create_features start_date date_str stage = Ok (Some X, None) ->
  model_predict (Some X) = Ok (label :: more) ->
  predict start_date model_predict form
  = ([CallCreateFeatures date_str stage; CallModelPredict (Some X)],
     Ok (page ("The predicted disease for stage '" ++ stage ++ "' on "
               ++ date_str ++ " is: " ++ label)
              (Some date_str) (Some stage))).
Proof.
  intros Hd Hs Ns Hc Hm.
  pose proof (create_features_nonempty _ _ _ _ _ Hc) as Nd.
  unfold predict. rewrite Hd, Hs.
  rewrite (truthy_nonempty _ Nd), (truthy_nonempty _ Ns). cbn [negb orb].
  rewrite Hc. unfold tbind, tcall, tret. cbn [truthy]. rewrite Hm.
  reflexivity.
Qed.

Lemma predict_success_page_witness :
  predict scenario_start_date (constant_model "Common Rust")
          [("date_input", "2024-03-15"); ("stage_input", "Seedling")]
  = ([CallCreateFeatures "2024-03-15" "Seedling";
      CallModelPredict (Some {| Stage := ["Seedling"]; DayOfYear := [75];
                                DaysSinceStart := [74] |})],
     Ok (page ("The predicted disease for stage '" ++ "Seedling" ++ "' on "
               ++ "2024-03-15" ++ " is: " ++ "Common Rust")
              (Some "2024-03-15") (Some "Seedling"))).
Proof.
  refine (predict_success_page scenario_start_date (constant_model "Common Rust")
            [("date_input", "2024-03-15"); ("stage_input", "Seedling")]
            "2024-03-15" "Seedling"
            {| Stage := ["Seedling"]; DayOfYear := [75];
               DaysSinceStart := [74] |}
            "Common Rust" [] eq_refl eq_refl _ eq_refl eq_refl).
  discriminate.
Defined.

(** X9. A failure of the classifier is not handled: when [model.predict]
    raises on the record, [predict] raises the same exception, after its
    two calls and without rendering a page. *)
Theorem predict_classifier_failure
    start_date model_predict form date_str stage X e :
  form_get form "date_input" = Some date_str ->
  form_get form "stage_input" = Some stage ->
  stage <> "" ->
  create_features start_date date_str stage = Ok (Some X, None) ->
  model_predict (Some X) = Raise e ->
  predict start_date model_predict form
  = ([CallCreateFeatures date_str stage; CallModelPredict (Some X)], Raise e).
Proof.
  intros Hd Hs Ns Hc Hm.
  pose proof (create_features_nonempty _ _ _ _ _ Hc) as Nd.
  unfold predict. rewrite Hd, Hs.
  rewrite (truthy_nonempty _ Nd), (truthy_nonempty _ Ns). cbn [negb orb].
  rewrite Hc. unfold tbind, tcall, tret. cbn [truthy]. rewrite Hm.
  reflexivity.
Qed.

Lemma predict_classifier_failure_witness :
  predict scenario_start_date
          (fun _ => Raise (ValueError "Found unknown categories"))
          [("date_input", "2024-03-15"); ("stage_input", "Ripening")]
  = ([CallCreateFeatures "2024-03-15" "Ripening";
      CallModelPredict (Some {| Stage := ["Ripening"]; DayOfYear := [75];
                                DaysSinceStart := [74] |})],
     Raise (ValueError "Found unknown categories")).
Proof.
  refine (predict_classifier_failure scenario_start_date
            (fun _ => Raise (ValueError "Found unknown categories"))
            [("date_input", "2024-03-15"); ("stage_input", "Ripening")]
            "2024-03-15" "Ripening"
            {| Stage := ["Ripening"]; DayOfYear := [75];
               DaysSinceStart := [74] |}
            (ValueError "Found unknown categories")
            eq_refl eq_refl _ eq_refl eq_refl).
  discriminate.
Defined.

(** X10. Of the steps that [predict] takes between reading the form and
    rendering the page, only the call of the classifier and the taking of
    its first label can raise, the feature builder never: with a
    well-formed start date, whenever the trace of the handler ends in an
    exception, the features were built, the classifier was called on them,
    and either it raised that exception or it returned no label and the
    exception is the [IndexError] of taking the first one. (What Flask
    does when it parses the form and renders the template is outside the
    model.) *)
Theorem predict_raises_through_classifier start_date model_predict form e :
  valid_datetime start_date ->
  snd (predict start_date model_predict form) = Raise e ->
  exists date_str stage X,
    fst (predict start_date model_predict form)
    = [CallCreateFeatures date_str stage; CallModelPredict (Some X)]
    /\ create_features start_date date_str stage = Ok (Some X, None)
    /\ (model_predict (Some X) = Raise e
        \/ (model_predict (Some X) = Ok []
            /\ e = IndexError "index 0 is out of bounds")).
Proof.
  intros Hv. unfold predict.
  destruct (form_get form "date_input") as [date_str|],
           (form_get form "stage_input") as [stage|]; try discriminate.
  destruct (negb (truthy (Some date_str)) || negb (truthy (Some stage)));
    [discriminate|].
  destruct (strptime date_str) as [dt|ex] eqn:Hp;
    [rewrite (create_features_record start_date date_str stage _ Hv Hp)
    |rewrite (create_features_rejected start_date date_str stage _ Hp)];
    unfold tbind, tcall, tret.
  - cbn [truthy].
    destruct (model_predict _) as [labels|e'] eqn:Hm.
    + destruct labels as [|l more]; simpl; [|discriminate].
      intros H; inv H. do 3 eexists. split; [reflexivity|].
      split; [exact (create_features_record start_date date_str stage _ Hv Hp)|].
      right. auto.
    + simpl. intros H; inv H. do 3 eexists. split; [reflexivity|].
      split; [exact (create_features_record start_date date_str stage _ Hv Hp)|].
      left. exact Hm.
  - discriminate.
Qed.

Lemma predict_raises_through_classifier_witness :
  valid_datetime scenario_start_date
  /\ exists date_str stage X,
       fst (predict scenario_start_date (fun _ => Ok [])
                    [("date_input", "2024-03-15"); ("stage_input", "Seedling")])
       = [CallCreateFeatures date_str stage; CallModelPredict (Some X)]
       /\ create_features scenario_start_date date_str stage = Ok (Some X, None)
       /\ ((fun _ : option DataFrame => @Ok (list string) []) (Some X)
           = Raise (IndexError "index 0 is out of bounds")
           \/ ((fun _ : option DataFrame => @Ok (list string) []) (Some X)
               = Ok []
               /\ IndexError "index 0 is out of bounds"
                  = IndexError "index 0 is out of bounds")).
Proof.
  assert (valid_datetime scenario_start_date) as Hs by concrete.
  split; [exact Hs|].
  exact (predict_raises_through_classifier scenario_start_date (fun _ => Ok [])
           [("date_input", "2024-03-15"); ("stage_input", "Seedling")]
           (IndexError "index 0 is out of bounds") Hs eq_refl).
Defined.

(** X11. With a well-formed start date, [predict] calls the classifier
    exactly when both fields are filled and the parse of the date
    succeeds: the stage takes no part in the decision beyond being
    non-empty. *)
Theorem predict_classifier_call_condition start_date model_predict form :
  valid_datetime start_date ->
  (existsb is_classifier_call (fst (predict start_date model_predict form))
   = true
   <-> exists date_str stage dt,
         form_get form "date_input" = Some date_str
         /\ form_get form "stage_input" = Some stage
         /\ stage <> ""
         /\ strptime date_str = Ok dt).
Proof.
  intros Hv. split.
  - destruct (truthy (form_get form "date_input")) eqn:Td,
             (truthy (form_get form "stage_input")) eqn:Ts;
      try (rewrite predict_missing by auto; discriminate).
    destruct (form_get form "date_input") as [date_str|] eqn:Hd;
      [|discriminate].
    destruct (form_get form "stage_input") as [stage|] eqn:Hs;
      [|discriminate].
    assert (date_str <> "") as Nd by (intros ->; discriminate).
    assert (stage <> "") as Ns by (intros ->; discriminate).
    destruct (strptime date_str) as [dt|ex] eqn:Hp.
    + intros _. exists date_str, stage, dt. auto.
    + rewrite (predict_rejected start_date model_predict form date_str stage
                 ex Hd Hs Nd Ns Hp).
      discriminate.
  - intros (date_str & stage & dt & Hd & Hs & Ns & Hp).
    pose proof (create_features_record start_date date_str stage _ Hv Hp) as E.
    assert (date_str <> "") as Nd by (intros ->; discriminate).
    rewrite (predict_accepted start_date model_predict form date_str stage _
               Hd Hs Nd Ns E).
    reflexivity.
Qed.

Lemma predict_classifier_call_condition_witness :
  valid_datetime scenario_start_date
  /\ (existsb is_classifier_call
              (fst (predict scenario_start_date (constant_model "Rust")
                            [("stage_input", "Seedling");
                             ("date_input", "2024-02-30")]))
      = true
      <-> exists date_str stage dt,
            form_get [("stage_input", "Seedling"); ("date_input", "2024-02-30")]
                     "date_input" = Some date_str
            /\ form_get [("stage_input", "Seedling");
                         ("date_input", "2024-02-30")]
                        "stage_input" = Some stage
            /\ stage <> ""
            /\ strptime date_str = Ok dt).
Proof.
  assert (valid_datetime scenario_start_date) as Hs by concrete.
  split; [exact Hs|].
  exact (predict_classifier_call_condition scenario_start_date
           (constant_model "Rust")
           [("stage_input", "Seedling"); ("date_input", "2024-02-30")] Hs).
Defined.

(** X12. Every page that [predict] renders, on any of its three paths, is
    the template index.html with the six stages of the selector, a
    message, and the two fields handed back exactly as submitted,
    [None] for an absent one. *)
Theorem predict_page_echoes_form start_date model_predict form r :
  snd (predict start_date model_predict form) = Ok r ->
  template r = "index.html"
  /\ lookup "stages" (context r) = Some (VList UNIQUE_STAGES)
  /\ (exists text, message r = Some (VStr text))
  /\ lookup "date_val" (context r)
     = Some (of_option (form_get form "date_input"))
  /\ lookup "stage_val" (context r)
     = Some (of_option (form_get form "stage_input")).
Proof.
  intros H. apply predict_page in H as [text ->].
  repeat split. exists text. reflexivity.
Qed.

Lemma predict_page_echoes_form_witness :
  template (page "Error: Please provide both date and stage."
                 (Some "2024-03-15") None) = "index.html"
  /\ lookup "stages" (context (page "Error: Please provide both date and stage."
                                    (Some "2024-03-15") None))
     = Some (VList UNIQUE_STAGES)
  /\ (exists text,
        message (page "Error: Please provide both date and stage."
                      (Some "2024-03-15") None) = Some (VStr text))
  /\ lookup "date_val" (context (page "Error: Please provide both date and stage."
                                      (Some "2024-03-15") None))
     = Some (of_option (form_get [("date_input", "2024-03-15")] "date_input"))
  /\ lookup "stage_val" (context (page "Error: Please provide both date and stage."
                                       (Some "2024-03-15") None))
     = Some (of_option (form_get [("date_input", "2024-03-15")] "stage_input")).
Proof.
  exact (predict_page_echoes_form scenario_start_date (constant_model "Rust")
           [("date_input", "2024-03-15")]
           (page "Error: Please provide both date and stage."
                 (Some "2024-03-15") None)
           eq_refl).
Defined.

(** X13. The first load that raises decides how start-up ends: on a
    [FileNotFoundError] the message is printed and the process exits, with
    status 0; any other exception is not caught. When it is the model file
    that fails, the start date file is not opened. *)
Theorem startup_first_failure (Obj : Type) (joblib_load : string -> result Obj)
    (e : exn) :
  joblib_load MODEL_FILE = Raise e
  \/ (exists model, joblib_load MODEL_FILE = Ok model
                    /\ joblib_load START_DATE_FILE = Raise e) ->
  snd (startup Obj joblib_load)
  = (if is_FileNotFoundError e then Exited STARTUP_ERROR 0 else Crashed e)
  /\ (joblib_load MODEL_FILE = Raise e ->
      fst (startup Obj joblib_load) = [MODEL_FILE]).
Proof.
  unfold startup. intros [H | (model & Hm & H)].
  - rewrite H. split; [reflexivity | intros _; reflexivity].
  - rewrite Hm, H. split; [reflexivity | discriminate].
Qed.

Lemma startup_first_failure_witness :
  ((fun f => if String.eqb f START_DATE_FILE
             then Raise (OtherError "FileNotFoundError" "No such file")
             else Ok tt) MODEL_FILE
   = Raise (OtherError "FileNotFoundError" "No such file")
   \/ (exists model,
         (fun f => if String.eqb f START_DATE_FILE
                   then Raise (OtherError "FileNotFoundError" "No such file")
                   else Ok tt) MODEL_FILE = Ok model
         /\ (fun f => if String.eqb f START_DATE_FILE
                      then Raise (OtherError "FileNotFoundError" "No such file")
                      else Ok tt) START_DATE_FILE
            = Raise (OtherError "FileNotFoundError" "No such file")))
  /\ snd (startup unit
            (fun f => if String.eqb f START_DATE_FILE
                      then Raise (OtherError "FileNotFoundError" "No such file")
                      else Ok tt))
     = Exited STARTUP_ERROR 0.
Proof.
  assert ((fun f => if String.eqb f START_DATE_FILE
                    then Raise (OtherError "FileNotFoundError" "No such file")
                    else Ok tt) MODEL_FILE
          = Raise (OtherError "FileNotFoundError" "No such file")
          \/ (exists model : unit,
                (fun f => if String.eqb f START_DATE_FILE
                          then Raise (OtherError "FileNotFoundError" "No such file")
                          else Ok tt) MODEL_FILE = Ok model
                /\ (fun f => if String.eqb f START_DATE_FILE
                             then Raise (OtherError "FileNotFoundError"
                                                    "No such file")
                             else Ok tt) START_DATE_FILE
                   = Raise (OtherError "FileNotFoundError" "No such file")))
    as H.
  { right. exists tt. split; reflexivity. }
  split; [exact H|].
  exact (proj1 (startup_first_failure unit
                  (fun f => if String.eqb f START_DATE_FILE
                            then Raise (OtherError "FileNotFoundError"
                                                   "No such file")
                            else Ok tt)
                  (OtherError "FileNotFoundError" "No such file") H)).
Defined.

(** X14. [DaysSinceStart] follows the calendar: of two valid dates, the
    earlier one gets the strictly smaller value, whatever the start date,
    so distinct dates never share a value. *)
Theorem create_features_monotone
    start_date s1 s2 stage y1 m1 d1 y2 m2 d2 :
  valid_datetime start_date ->
  valid_date_string s1 y1 m1 d1 ->
  valid_date_string s2 y2 m2 d2 ->
  before (mkdate y1 m1 d1) (mkdate y2 m2 d2) ->
  exists doy1 n1 doy2 n2,
    create_features start_date s1 stage
    = Ok (Some {| Stage := [stage]; DayOfYear := [doy1];
                  DaysSinceStart := [n1] |}, None)
    /\ create_features start_date s2 stage
       = Ok (Some {| Stage := [stage]; DayOfYear := [doy2];
                     DaysSinceStart := [n2] |}, None)
    /\ n1 < n2.
Proof.
  intros Hs H1 H2 Hb.
  pose proof (create_features_record start_date s1 stage _ Hs
                (strptime_valid _ _ _ _ H1)) as E1.
  pose proof (create_features_record start_date s2 stage _ Hs
                (strptime_valid _ _ _ _ H2)) as E2.
  do 4 eexists. split; [exact E1|]. split; [exact E2|].
  pose proof (ordinal_before (mkdate y1 m1 d1) (mkdate y2 m2 d2)
                (proj2 H1) (proj2 H2) Hb) as O.
  change (toordinal (mkdatetime y1 m1 d1 0 0 0 0)) with (ordinal (mkdate y1 m1 d1)).
  change (toordinal (mkdatetime y2 m2 d2 0 0 0 0)) with (ordinal (mkdate y2 m2 d2)).
  lia.
Qed.

Lemma create_features_monotone_witness :
  valid_datetime scenario_start_date
  /\ valid_date_string "2023-12-31" 2023 12 31
  /\ valid_date_string "2024-01-01" 2024 1 1
  /\ before (mkdate 2023 12 31) (mkdate 2024 1 1)
  /\ exists doy1 n1 doy2 n2,
       create_features scenario_start_date "2023-12-31" "Seedling"
       = Ok (Some {| Stage := ["Seedling"]; DayOfYear := [doy1];
                     DaysSinceStart := [n1] |}, None)
       /\ create_features scenario_start_date "2024-01-01" "Seedling"
          = Ok (Some {| Stage := ["Seedling"]; DayOfYear := [doy2];
                        DaysSinceStart := [n2] |}, None)
       /\ n1 < n2.
Proof.
  assert (valid_datetime scenario_start_date) as Hs by concrete.
  assert (valid_date_string "2023-12-31" 2023 12 31) as H1.
  { split; [|concrete].
    exists "2"%char, "0"%char, "2"%char, "3"%char, "12", "31". concrete. }
  assert (valid_date_string "2024-01-01" 2024 1 1) as H2.
  { split; [|concrete].
    exists "2"%char, "0"%char, "2"%char, "4"%char, "01", "01". concrete. }
  assert (before (mkdate 2023 12 31) (mkdate 2024 1 1)) as Hb
    by (left; simpl; lia).
  split; [exact Hs | split; [exact H1 | split; [exact H2 | split;
    [exact Hb|]]]].
  exact (create_features_monotone scenario_start_date "2023-12-31" "2024-01-01"
           "Seedling" 2023 12 31 2024 1 1 Hs H1 H2 Hb).
Defined.

(** X15. [DayOfYear] depends on the year through leap years only: the same
    month and day give, in a leap year, the value of a common year, plus
    one from March on. *)
Theorem create_features_leap_shift
    start_date s1 s2 stage y1 y2 m d :
  valid_datetime start_date ->
  valid_date_string s1 y1 m d ->
  valid_date_string s2 y2 m d ->
  leap_year y1 = true -> leap_year y2 = false ->
  exists doy1 n1 doy2 n2,
    create_features start_date s1 stage
    = Ok (Some {| Stage := [stage]; DayOfYear := [doy1];
                  DaysSinceStart := [n1] |}, None)
    /\ create_features start_date s2 stage
       = Ok (Some {| Stage := [stage]; DayOfYear := [doy2];
                     DaysSinceStart := [n2] |}, None)
    /\ doy1 = doy2 + (if 2 <? m then 1 else 0).
Proof.
  intros Hs H1 H2 L1 L2.
  pose proof (create_features_record start_date s1 stage _ Hs
                (strptime_valid _ _ _ _ H1)) as E1.
  pose proof (create_features_record start_date s2 stage _ Hs
                (strptime_valid _ _ _ _ H2)) as E2.
  do 4 eexists. split; [exact E1|]. split; [exact E2|].
  unfold tm_yday. simpl. rewrite !_days_before_month_leap, L1, L2.
  rewrite andb_true_r, andb_false_r. lia.
Qed.

Lemma create_features_leap_shift_witness :
  valid_datetime scenario_start_date
  /\ valid_date_string "2024-03-15" 2024 3 15
  /\ valid_date_string "2023-03-15" 2023 3 15
  /\ leap_year 2024 = true /\ leap_year 2023 = false
  /\ exists doy1 n1 doy2 n2,
       create_features scenario_start_date "2024-03-15" "Seedling"
       = Ok (Some {| Stage := ["Seedling"]; DayOfYear := [doy1];
                     DaysSinceStart := [n1] |}, None)
       /\ create_features scenario_start_date "2023-03-15" "Seedling"
          = Ok (Some {| Stage := ["Seedling"]; DayOfYear := [doy2];
                        DaysSinceStart := [n2] |}, None)
       /\ doy1 = doy2 + (if 2 <? 3 then 1 else 0).
Proof.
  assert (valid_datetime scenario_start_date) as Hs by concrete.
  assert (valid_date_string "2024-03-15" 2024 3 15) as H1.
  { split; [|concrete].
    exists "2"%char, "0"%char, "2"%char, "4"%char, "03", "15". concrete. }
  assert (valid_date_string "2023-03-15" 2023 3 15) as H2.
  { split; [|concrete].
    exists "2"%char, "0"%char, "2"%char, "3"%char, "03", "15". concrete. }
  split; [exact Hs | split; [exact H1 | split; [exact H2 | split;
    [reflexivity | split; [reflexivity|]]]]].
  exact (create_features_leap_shift scenario_start_date "2024-03-15"
           "2023-03-15" "Seedling" 2024 2023 3 15 Hs H1 H2 eq_refl eq_refl).
Defined.
